(** * BOM explosion, costing and planning services of 16Food-QLSX

    A shallow embedding of
    - [backend/app/services/bom_service.py],
    - [backend/app/services/production_service.py],
    - [backend/app/services/production_planning_service.py],
    over an explicit database value that stands for the SQLAlchemy session.

    Conventions of the embedding:
    - primary keys (UUIDs) are integers, dates are day ordinals
      ([date.toordinal()]), so [d + 1] is [d + timedelta(days=1)];
    - [float] and [Decimal] quantities are exact rationals ([Q]); equalities
      between computed quantities are stated with [==];
    - a Python [dict] is an association list in insertion order;
    - a function that can raise returns a [result]. *)

From Stdlib Require Import ZArith QArith Qround List Sorted.
From Stdlib Require Import String Ascii Bool Lia Lqa.
Import ListNotations.
Open Scope Z_scope.

(** ** Python values *)

Module Py.

Inductive exn : Type :=
| ValueError (what : string) (key : Z)
| IntegrityError (what : string) (key : Z).

Inductive result (A : Type) : Type :=
| Ok (a : A)
| Raise (e : exn).
Arguments Ok {A} a.
Arguments Raise {A} e.

(** A [float]: a number, an infinity or not-a-number. *)
Inductive PyFloat : Type :=
| Finite (q : Q)
| PosInf
| NegInf
| NaN.

(** Truth value of an optional number: [None] and zero are false. *)
Definition truthy_num (x : option Q) : bool :=
  match x with
  | Some q => negb (Qeq_bool q 0)
  | None => false
  end.

Definition truthy_int (x : option Z) : bool :=
  match x with
  | Some z => negb (z =? 0)
  | None => false
  end.

(** Truth value of an optional string: [None] and [""] are false. *)
Definition truthy_str (x : option string) : bool :=
  match x with
  | Some EmptyString => false
  | Some _ => true
  | None => false
  end.

(** [x or 0] on an optional number. *)
Definition or_zero (x : option Q) : Q :=
  if truthy_num x then match x with Some q => q | None => 0%Q end else 0%Q.

(** [float(x) if x else None] on a nullable numeric column. *)
Definition float_or_none (x : option Q) : option Q :=
  if truthy_num x then x else None.

Definition Qltb (a b : Q) : bool := negb (Qle_bool b a).

(** [max(a, b)]: the first argument unless the second is greater. *)
Definition max2 (a b : Q) : Q := if Qltb a b then b else a.

(** [min(a, b)]: the first argument unless the second is smaller. *)
Definition min2 (a b : Q) : Q := if Qltb b a then b else a.

(** [sum(xs)] *)
Definition sum (xs : list Q) : Q := fold_left Qplus xs 0%Q.

(** Stable sort by a "comes first" test, for [ORDER BY] and [sorted]. *)
Fixpoint insert_by {A : Type} (first : A -> A -> bool) (x : A) (l : list A)
  : list A :=
  match l with
  | [] => [x]
  | y :: t => if first x y then x :: l else y :: insert_by first x t
  end.

Definition order_by {A : Type} (first : A -> A -> bool) (l : list A)
  : list A :=
  fold_right (insert_by first) [] l.

Definition comes_first {A : Type} (first : A -> A -> bool) (a b : A)
  : Prop :=
  first a b = true.

(** [e.desc().nullslast()] on an optional integer key. *)
Definition desc_nullslast (a b : option Z) : bool :=
  match a, b with
  | Some x, Some y => y <=? x
  | Some _, None => true
  | None, Some _ => false
  | None, None => true
  end.

(** [e.asc().nullslast()] on an optional integer key. *)
Definition asc_nullslast (a b : option Z) : bool :=
  match a, b with
  | Some x, Some y => x <=? y
  | Some _, None => true
  | None, Some _ => false
  | None, None => true
  end.

(** A [dict] with integer keys, in insertion order. *)
Definition dict (V : Type) : Type := list (Z * V).

Fixpoint dict_get {V : Type} (k : Z) (d : dict V) : option V :=
  match d with
  | [] => None
  | (k', v) :: t => if k' =? k then Some v else dict_get k t
  end.

Definition dict_mem {V : Type} (k : Z) (d : dict V) : bool :=
  match dict_get k d with Some _ => true | None => false end.

(** [d[k] = v]: replaces in place, or appends a new key. *)
Fixpoint dict_set {V : Type} (k : Z) (v : V) (d : dict V) : dict V :=
  match d with
  | [] => [(k, v)]
  | (k', v') :: t =>
      if k' =? k then (k', v) :: t else (k', v') :: dict_set k v t
  end.

(** [if key(r) not in d: d[key(r)] = val(r)] *)
Definition keep_first {R V : Type} (key : R -> Z) (val : R -> V)
    (acc : dict V) (r : R) : dict V :=
  if dict_mem (key r) acc then acc else dict_set (key r) (val r) acc.

Definition dict_keys {V : Type} (d : dict V) : list Z := map fst d.
Definition dict_values {V : Type} (d : dict V) : list V := map snd d.

(** *** [re.search(r'(\d+(?:\.\d+)?)', s)] followed by [float(group(1))] *)

Definition is_digit (c : ascii) : bool :=
  let n := nat_of_ascii c in ((48 <=? n) && (n <=? 57))%nat.

Definition digit_val (c : ascii) : Z := Z.of_nat (nat_of_ascii c) - 48.

Fixpoint span_digits (l : list ascii) : list ascii * list ascii :=
  match l with
  | [] => ([], [])
  | c :: t =>
      if is_digit c
      then let (ds, rest) := span_digits t in (c :: ds, rest)
      else ([], l)
  end.

Definition digits_val (ds : list ascii) : Z :=
  fold_left (fun acc c => 10 * acc + digit_val c) ds 0.

(** The matched text: the integer digits and the fraction digits (empty
    when the optional group did not match). *)
Fixpoint search_number (l : list ascii)
  : option (list ascii * list ascii) :=
  match l with
  | [] => None
  | c :: t =>
      if is_digit c then
        let (ds, rest) := span_digits l in
        match rest with
        | "."%char :: r => Some (ds, fst (span_digits r))
        | _ => Some (ds, [])
        end
      else search_number t
  end.

Definition number_val (m : list ascii * list ascii) : Q :=
  let (ds, fs) := m in
  (inject_Z (digits_val ds)
   + inject_Z (digits_val fs) / inject_Z (10 ^ Z.of_nat (List.length fs)))%Q.

Definition first_number (s : string) : option Q :=
  option_map number_val (search_number (list_ascii_of_string s)).

End Py.
Export Py.

(** ** Tables ([backend/app/models/entities.py]) *)

Definition Id := Z.
Definition Date := Z.

Record Product := {
  p_id : Id;
  p_code : string;
  p_name : string;
  p_group : string;
  p_main_uom : string;
  p_batch_spec : option string;
  p_cost_price : option Q
}.

Record BomMaterial := {
  bm_product_id : Id;
  bm_material_id : Id;
  bm_quantity : Q;
  bm_uom : string;
  bm_cost : option Q;
  bm_effective_date : option Date
}.

Record BomSemiProduct := {
  bs_semi_product_id : Id;
  bs_component_id : Id;
  bs_quantity : Q;
  bs_uom : string;
  bs_operation_sequence : option Z
}.

Record BomLabor := {
  bl_product_id : Id;
  bl_equipment : option string;
  bl_labor_type : option string;
  bl_quantity : option Q;
  bl_duration_minutes : option Z;
  bl_unit_cost : option Q
}.

Record MaterialPriceHistory := {
  ph_material_id : Id;
  ph_price : Q;
  ph_quoted_date : Date
}.

Record Warehouse := {
  w_id : Id;
  w_type : string
}.

Record InventorySnapshot := {
  inv_product_id : Id;
  inv_warehouse_id : Id;
  inv_current_qty : Q
}.

Record SalesOrder := {
  so_id : Id;
  so_delivery_date : Date;
  so_status : string
}.

Record SalesOrderLine := {
  sol_order_id : Id;
  sol_product_id : Id;
  sol_quantity : Q
}.

Record ProductionPlanDay := {
  ppd_production_date : Date;
  ppd_product_id : Id;
  ppd_planned_qty : Q;
  ppd_ordered_qty : Q;
  ppd_remaining_qty : Q;
  ppd_capacity_max : Q
}.

Record ProductionOrderLine := {
  pol_product_id : Id;
  pol_batch_spec : option string;
  pol_batch_count : Q;
  pol_planned_qty : Q
}.

Record ProductionOrder := {
  po_id : Id;
  po_business_date : Date;
  po_business_no : Z;
  po_production_date : Date;
  po_order_type : string;
  po_product_id : Id;
  po_planned_qty : Q;
  po_lines : list ProductionOrderLine
}.

(** The session: every table the services query, in storage order. *)
Record Db := {
  products : list Product;
  bom_materials : list BomMaterial;
  bom_semi_products : list BomSemiProduct;
  bom_labors : list BomLabor;
  price_history : list MaterialPriceHistory;
  warehouses : list Warehouse;
  inventory : list InventorySnapshot;
  sales_orders : list SalesOrder;
  sales_order_lines : list SalesOrderLine;
  plan_days : list ProductionPlanDay;
  production_orders : list ProductionOrder
}.

(** [db.query(Product).filter(Product.id == i).first()] *)
Definition get_product (db : Db) (i : Id) : option Product :=
  find (fun p => p_id p =? i) (products db).

(** ** [bom_service.py] *)

Module BomService.

Record BomItem := {
  material_id : Id;
  material_code : string;
  material_name : string;
  quantity : Q;
  uom : string;
  cost : option Q;
  effective_date : option Date
}.

(** The joined and filtered rows of [get_bom_materials], before ordering. *)
Definition bom_material_rows (db : Db) (product_id : Id)
    (effective_date : option Date) : list (BomMaterial * Product) :=
  let joined :=
    flat_map (fun bm =>
      map (fun m => (bm, m))
          (filter (fun m => p_id m =? bm_material_id bm) (products db)))
      (bom_materials db) in
  let rows := filter (fun r => bm_product_id (fst r) =? product_id) joined in
  match effective_date with
  | Some d =>
      filter (fun r =>
        match bm_effective_date (fst r) with
        | Some e => e <=? d
        | None => true
        end) rows
  | None => rows
  end.

Definition bom_item_of (r : BomMaterial * Product) : BomItem :=
  let (bom_material, material) := r in
  {| material_id := p_id material;
     material_code := p_code material;
     material_name := p_name material;
     quantity := bm_quantity bom_material;
     uom := bm_uom bom_material;
     cost := float_or_none (bm_cost bom_material);
     effective_date := bm_effective_date bom_material |}.

Definition get_bom_materials (db : Db) (product_id : Id)
    (effective_date : option Date) : list BomItem :=
  let rows :=
    order_by (fun a b => desc_nullslast (bm_effective_date (fst a))
                                        (bm_effective_date (fst b)))
             (bom_material_rows db product_id effective_date) in
  let materials_map :=
    fold_left (keep_first (fun r => p_id (snd r)) bom_item_of) rows [] in
  dict_values materials_map.

Record SemiItem := {
  component_id : Id;
  component_code : string;
  component_name : string;
  semi_quantity : Q;
  semi_uom : string;
  operation_sequence : option Z
}.

Definition get_bom_semi_products (db : Db) (product_id : Id)
  : list SemiItem :=
  let joined :=
    flat_map (fun bs =>
      map (fun c => (bs, c))
          (filter (fun c => p_id c =? bs_component_id bs) (products db)))
      (bom_semi_products db) in
  let rows :=
    order_by (fun a b => asc_nullslast (bs_operation_sequence (fst a))
                                       (bs_operation_sequence (fst b)))
      (filter (fun r => bs_semi_product_id (fst r) =? product_id) joined) in
  map (fun r : BomSemiProduct * Product =>
    let (bom_semi, component) := r in
    {| component_id := p_id component;
       component_code := p_code component;
       component_name := p_name component;
       semi_quantity := bs_quantity bom_semi;
       semi_uom := bs_uom bom_semi;
       operation_sequence := bs_operation_sequence bom_semi |}) rows.

(** [today] stands for [date.today()]. *)
Definition get_material_price (today : Date) (db : Db) (material_id : Id)
    (pricing_date : option Date) : option Q :=
  let pricing_date :=
    match pricing_date with Some d => d | None => today end in
  let rows :=
    order_by (fun a b => ph_quoted_date b <=? ph_quoted_date a)
      (filter (fun h => (ph_material_id h =? material_id)
                        && (ph_quoted_date h <=? pricing_date))
              (price_history db)) in
  match rows with
  | price_row :: _ => Some (ph_price price_row)
  | [] => None
  end.

(** One entry of the [material_requirements] dict. *)
Record Requirement := {
  r_material_id : Id;
  r_material_code : string;
  r_material_name : string;
  required_quantity : Q;
  r_uom : string;
  unit_cost : option Q;
  total_cost : Q
}.

(** Body of the loop over [btp_materials]. *)
Definition add_btp_material (batch_count : Q)
    (material_requirements : dict Requirement) (btp_bom_item : BomItem)
  : dict Requirement :=
  let mat_id := material_id btp_bom_item in
  let mat_qty_per_batch := quantity btp_bom_item in
  let total_mat_qty := (batch_count * mat_qty_per_batch)%Q in
  match dict_get mat_id material_requirements with
  | Some r =>
      dict_set mat_id
        {| r_material_id := r_material_id r;
           r_material_code := r_material_code r;
           r_material_name := r_material_name r;
           required_quantity := (required_quantity r + total_mat_qty)%Q;
           r_uom := r_uom r;
           unit_cost := unit_cost r;
           total_cost :=
             (total_cost r
              + total_mat_qty * or_zero (cost btp_bom_item))%Q |}
        material_requirements
  | None =>
      dict_set mat_id
        {| r_material_id := mat_id;
           r_material_code := material_code btp_bom_item;
           r_material_name := material_name btp_bom_item;
           required_quantity := total_mat_qty;
           r_uom := uom btp_bom_item;
           unit_cost := cost btp_bom_item;
           total_cost :=
             (total_mat_qty * or_zero (cost btp_bom_item))%Q |}
        material_requirements
  end.

(** Body of the loop over [semi_products] (step 2).  The [try] around the
    batch computation has nothing to catch: [float] is applied to text the
    pattern matched. *)
Definition add_semi_product (today : Date) (db : Db) (planned_qty : Q)
    (material_requirements : dict Requirement) (semi_item : SemiItem)
  : dict Requirement :=
  let component_id := component_id semi_item in
  let required_btp_qty := (planned_qty * semi_quantity semi_item)%Q in
  match get_product db component_id with
  | None => material_requirements
  | Some component_product =>
      if String.eqb (p_group component_product) "BTP" then
        let batch_spec := p_batch_spec component_product in
        if truthy_str batch_spec then
          match first_number
                  (match batch_spec with Some s => s | None => "" end) with
          | Some batch_size =>
              if Qltb 0 batch_size then
                let batch_count := (required_btp_qty / batch_size)%Q in
                let btp_materials :=
                  get_bom_materials db component_id None in
                fold_left (add_btp_material batch_count) btp_materials
                          material_requirements
              else material_requirements
          | None => material_requirements
          end
        else material_requirements
      else
        match dict_get component_id material_requirements with
        | Some r =>
            dict_set component_id
              {| r_material_id := r_material_id r;
                 r_material_code := r_material_code r;
                 r_material_name := r_material_name r;
                 required_quantity :=
                   (required_quantity r + required_btp_qty)%Q;
                 r_uom := r_uom r;
                 unit_cost := unit_cost r;
                 total_cost := total_cost r |}
              material_requirements
        | None =>
            let component_price :=
              get_material_price today db component_id None in
            dict_set component_id
              {| r_material_id := component_id;
                 r_material_code := p_code component_product;
                 r_material_name := p_name component_product;
                 required_quantity := required_btp_qty;
                 r_uom := semi_uom semi_item;
                 unit_cost := component_price;
                 total_cost :=
                   (required_btp_qty * or_zero component_price)%Q |}
              material_requirements
        end
  end.

(** The entry of step 1 for a direct material. *)
Definition direct_requirement (planned_qty : Q) (bom_item : BomItem)
  : Requirement :=
  let required_qty := (planned_qty * quantity bom_item)%Q in
  {| r_material_id := material_id bom_item;
     r_material_code := material_code bom_item;
     r_material_name := material_name bom_item;
     required_quantity := required_qty;
     r_uom := uom bom_item;
     unit_cost := cost bom_item;
     total_cost := (required_qty * or_zero (cost bom_item))%Q |}.

(** Body of the loop over the direct [bom_materials] (step 1). *)
Definition add_direct_material (planned_qty : Q)
    (material_requirements : dict Requirement) (bom_item : BomItem)
  : dict Requirement :=
  dict_set (material_id bom_item)
    (direct_requirement planned_qty bom_item) material_requirements.

(** The explosion of a product at a quantity: what the function does once
    the order and its product are found. *)
Definition explode (today : Date) (db : Db) (product_id : Id)
    (planned_qty : Q) : list Requirement :=
  let bom_materials := get_bom_materials db product_id None in
  let direct :=
    fold_left (add_direct_material planned_qty) bom_materials [] in
  let semi_products := get_bom_semi_products db product_id in
  dict_values
    (fold_left (add_semi_product today db planned_qty) semi_products direct).

Definition calculate_material_requirements_for_production_order
    (today : Date) (db : Db) (production_order_id : Id)
  : result (list Requirement) :=
  match find (fun po => po_id po =? production_order_id)
             (production_orders db) with
  | None => Raise (ValueError "production order" production_order_id)
  | Some po =>
      match get_product db (po_product_id po) with
      | None => Raise (ValueError "product" (po_product_id po))
      | Some _ =>
          Ok (explode today db (po_product_id po) (po_planned_qty po))
      end
  end.

Record MaterialDetail := {
  md_material_code : string;
  md_material_name : string;
  md_quantity : Q;
  md_uom : string;
  md_unit_cost : Q;
  md_line_cost : Q
}.

Record LaborDetail := {
  ld_equipment : option string;
  ld_labor_type : option string;
  ld_duration_minutes : option Z;
  ld_quantity : option Q;
  ld_unit_cost : option Q;
  ld_line_cost : Q
}.

Record CostData := {
  cd_product_id : Id;
  cd_product_code : string;
  cd_product_name : string;
  cd_pricing_date : Date;
  total_material_cost : Q;
  total_labor_cost : Q;
  cd_total_cost : Q;
  material_details : list MaterialDetail;
  labor_details : list LaborDetail
}.

(** The price a BOM line is costed at: the cost cached on the edge when it
    is truthy, else the price history. *)
Definition material_price_of (today : Date) (db : Db) (pricing_date : Date)
    (bom_item : BomItem) : option Q :=
  let material_price := cost bom_item in
  if negb (truthy_num material_price)
  then get_material_price today db (material_id bom_item) (Some pricing_date)
  else material_price.

Definition material_detail_of (today : Date) (db : Db) (pricing_date : Date)
    (bom_item : BomItem) : MaterialDetail :=
  let material_price := material_price_of today db pricing_date bom_item in
  let quantity := quantity bom_item in
  let unit_cost := or_zero material_price in
  let line_cost := (quantity * unit_cost)%Q in
  {| md_material_code := material_code bom_item;
     md_material_name := material_name bom_item;
     md_quantity := quantity;
     md_uom := uom bom_item;
     md_unit_cost := unit_cost;
     md_line_cost := line_cost |}.

Definition num (x : option Q) : Q :=
  match x with Some q => q | None => 0%Q end.

Definition int (x : option Z) : Z :=
  match x with Some z => z | None => 0 end.

Definition labor_cost_of (labor : BomLabor) : Q :=
  if truthy_num (bl_unit_cost labor)
     && truthy_int (bl_duration_minutes labor)
  then (inject_Z (int (bl_duration_minutes labor)) / 60
        * num (bl_unit_cost labor))%Q
  else if truthy_num (bl_unit_cost labor) && truthy_num (bl_quantity labor)
  then (num (bl_quantity labor) * num (bl_unit_cost labor))%Q
  else 0%Q.

Definition labor_detail_of (labor : BomLabor) : LaborDetail :=
  {| ld_equipment := bl_equipment labor;
     ld_labor_type := bl_labor_type labor;
     ld_duration_minutes := bl_duration_minutes labor;
     ld_quantity := float_or_none (bl_quantity labor);
     ld_unit_cost := float_or_none (bl_unit_cost labor);
     ld_line_cost := labor_cost_of labor |}.

Definition calculate_product_cost_from_bom (today : Date) (db : Db)
    (product_id : Id) (pricing_date : option Date) : result CostData :=
  let pricing_date :=
    match pricing_date with Some d => d | None => today end in
  match get_product db product_id with
  | None => Raise (ValueError "product" product_id)
  | Some product =>
      let bom_materials :=
        get_bom_materials db product_id (Some pricing_date) in
      let '(total_material_cost, material_details) :=
        fold_left (fun (acc : Q * list MaterialDetail) bom_item =>
          let d := material_detail_of today db pricing_date bom_item in
          ((fst acc + md_line_cost d)%Q, snd acc ++ [d]))
          bom_materials (0%Q, []) in
      let labor_rows :=
        filter (fun l => bl_product_id l =? product_id) (bom_labors db) in
      let '(total_labor_cost, labor_details) :=
        fold_left (fun (acc : Q * list LaborDetail) labor =>
          let d := labor_detail_of labor in
          ((fst acc + ld_line_cost d)%Q, snd acc ++ [d]))
          labor_rows (0%Q, []) in
      let total_cost := (total_material_cost + total_labor_cost)%Q in
      Ok {| cd_product_id := product_id;
            cd_product_code := p_code product;
            cd_product_name := p_name product;
            cd_pricing_date := pricing_date;
            total_material_cost := total_material_cost;
            total_labor_cost := total_labor_cost;
            cd_total_cost := total_cost;
            material_details := material_details;
            labor_details := labor_details |}
  end.

Record UpdatedProduct := {
  up_product_id : Id;
  up_product_code : string;
  up_product_name : string;
  old_cost_price : option Q;
  new_cost_price : Q
}.

Record CascadeUpdated := {
  cu_product_id : Id;
  cu_product_code : string;
  cu_product_name : string;
  cu_old_cost_price : option Q;
  cu_new_cost_price : Q;
  triggered_by_btp : string
}.

Record Recalculation := {
  rc_material_id : Id;
  updated_products : list UpdatedProduct;
  cascade_updated : list CascadeUpdated
}.

Definition with_cost_price (i : Id) (c : Q) (p : Product) : Product :=
  if p_id p =? i then
    {| p_id := p_id p; p_code := p_code p; p_name := p_name p;
       p_group := p_group p; p_main_uom := p_main_uom p;
       p_batch_spec := p_batch_spec p; p_cost_price := Some c |}
  else p.

(** [product.cost_price = c] on the session's instance of row [i]. *)
Definition set_cost_price (db : Db) (i : Id) (c : Q) : Db :=
  {| products := map (with_cost_price i c) (products db);
     bom_materials := bom_materials db;
     bom_semi_products := bom_semi_products db;
     bom_labors := bom_labors db;
     price_history := price_history db;
     warehouses := warehouses db;
     inventory := inventory db;
     sales_orders := sales_orders db;
     sales_order_lines := sales_order_lines db;
     plan_days := plan_days db;
     production_orders := production_orders db |}.

(** The products joined to the [BomMaterial] rows of a material, and to the
    [BomSemiProduct] rows of a component.  A joined [Product] is the
    session's instance of that row, so it is named by its key and read
    from the current session when the loop reaches it. *)
Definition products_using_material (db : Db) (material_id : Id)
  : list Id :=
  map (fun r : BomMaterial * Product => p_id (snd r))
    (filter (fun r => bm_material_id (fst r) =? material_id)
      (flat_map (fun bm =>
         map (fun p => (bm, p))
             (filter (fun p => p_id p =? bm_product_id bm) (products db)))
         (bom_materials db))).

Definition products_using_btp (db : Db) (btp_id : Id) : list Id :=
  map (fun r : BomSemiProduct * Product => p_id (snd r))
    (filter (fun r => bs_component_id (fst r) =? btp_id)
      (flat_map (fun bs =>
         map (fun p => (bs, p))
             (filter (fun p => p_id p =? bs_semi_product_id bs)
                     (products db)))
         (bom_semi_products db))).

Section Cascade.

(** The call [calculate_product_cost_from_bom(db, id)] inside the [try]
    blocks: every exception it raises is caught by [except Exception]. *)
Variable costing : Db -> Id -> result CostData.

(** Body of the inner loop over [products_using_btp]. *)
Definition recalculate_parent (btp_code : string)
    (st : Db * list CascadeUpdated) (parent_id : Id)
  : Db * list CascadeUpdated :=
  let (db, cascade_updated) := st in
  match get_product db parent_id with
  | None => st
  | Some parent_product =>
      match costing db parent_id with
      | Ok parent_cost_data =>
          let parent_new_cost := cd_total_cost parent_cost_data in
          let parent_old_cost :=
            float_or_none (p_cost_price parent_product) in
          (set_cost_price db parent_id parent_new_cost,
           cascade_updated ++
           [{| cu_product_id := p_id parent_product;
               cu_product_code := p_code parent_product;
               cu_product_name := p_name parent_product;
               cu_old_cost_price := parent_old_cost;
               cu_new_cost_price := parent_new_cost;
               triggered_by_btp := btp_code |}])
      | Raise _ => st
      end
  end.

(** Body of the outer loop over the products that use the material. *)
Definition recalculate_product
    (st : Db * list UpdatedProduct * list CascadeUpdated)
    (product_id : Id)
  : Db * list UpdatedProduct * list CascadeUpdated :=
  let '(db, updated_products, cascade_updated) := st in
  match get_product db product_id with
  | None => st
  | Some product =>
      match costing db product_id with
      | Ok cost_data =>
          let new_cost_price := cd_total_cost cost_data in
          let old_cost_price := float_or_none (p_cost_price product) in
          let db := set_cost_price db product_id new_cost_price in
          let updated_products :=
            updated_products ++
            [{| up_product_id := p_id product;
                up_product_code := p_code product;
                up_product_name := p_name product;
                old_cost_price := old_cost_price;
                new_cost_price := new_cost_price |}] in
          if String.eqb (p_group product) "BTP" then
            let (db, cascade_updated) :=
              fold_left (recalculate_parent (p_code product))
                        (products_using_btp db product_id)
                        (db, cascade_updated) in
            (db, updated_products, cascade_updated)
          else (db, updated_products, cascade_updated)
      | Raise _ => st
      end
  end.

Definition recalculate_with (db : Db) (material_id : Id)
  : Db * Recalculation :=
  let bom_materials := products_using_material db material_id in
  match bom_materials with
  | [] =>
      (db, {| rc_material_id := material_id;
              updated_products := [];
              cascade_updated := [] |})
  | _ =>
      let '(db, updated_products, cascade_updated) :=
        fold_left recalculate_product bom_materials (db, [], []) in
      (db, {| rc_material_id := material_id;
              updated_products := updated_products;
              cascade_updated := cascade_updated |})
  end.

End Cascade.

(** The session after the run and the returned dict. *)
Definition recalculate_product_cost_on_material_price_change
    (today : Date) (db : Db) (material_id : Id) : Db * Recalculation :=
  recalculate_with
    (fun db i => calculate_product_cost_from_bom today db i None)
    db material_id.

End BomService.

(** ** [production_service.py] *)

Module ProductionService.

Definition str (s : option string) : string :=
  match s with Some t => t | None => EmptyString end.

Fixpoint foldM {A B : Type} (f : A -> B -> result A) (l : list B) (a : A)
  : result A :=
  match l with
  | [] => Ok a
  | x :: t =>
      match f a x with
      | Ok a' => foldM f t a'
      | Raise e => Raise e
      end
  end.

Section BatchCount.

(** [float(s)] on a string: [None] when it raises [ValueError]. *)
Variable py_float : string -> option PyFloat.

Definition ceil (x : Q) : Q := inject_Z (Qceiling x).

(** The attempt [float(batch_spec)]: the batch count it returns, if any.
    Of the values that are not numbers only infinity is greater than 0, and
    the quotient by it is 0. *)
Definition simple_batch_count (planned_qty : Q) (batch_spec : string)
  : option Q :=
  match py_float batch_spec with
  | Some (Finite batch_size) =>
      if Qltb 0 batch_size
      then Some (ceil (planned_qty / batch_size))
      else None
  | Some PosInf => Some (ceil 0)
  | Some NegInf => None
  | Some NaN => None
  | None => None
  end.

(** Quotients are exact here, where the source divides two doubles. *)
Definition calculate_batch_count (planned_qty : Q)
    (batch_spec : option string) : Q :=
  if negb (truthy_str batch_spec) || Qle_bool planned_qty 0 then 0%Q
  else
    match simple_batch_count planned_qty (str batch_spec) with
    | Some batch_count => batch_count
    | None =>
        match first_number (str batch_spec) with
        | Some batch_size =>
            if Qltb 0 batch_size
            then ceil (planned_qty / batch_size)
            else 1%Q
        | None => 1%Q
        end
    end.

Definition with_plan_days (db : Db) (l : list ProductionPlanDay) : Db :=
  {| products := products db;
     bom_materials := bom_materials db;
     bom_semi_products := bom_semi_products db;
     bom_labors := bom_labors db;
     price_history := price_history db;
     warehouses := warehouses db;
     inventory := inventory db;
     sales_orders := sales_orders db;
     sales_order_lines := sales_order_lines db;
     plan_days := l;
     production_orders := production_orders db |}.

Definition with_production_orders (db : Db) (l : list ProductionOrder)
  : Db :=
  {| products := products db;
     bom_materials := bom_materials db;
     bom_semi_products := bom_semi_products db;
     bom_labors := bom_labors db;
     price_history := price_history db;
     warehouses := warehouses db;
     inventory := inventory db;
     sales_orders := sales_orders db;
     sales_order_lines := sales_order_lines db;
     plan_days := plan_days db;
     production_orders := l |}.

Definition get_available_stock (db : Db) (product_id : Id)
    (warehouse_type : string) : Q :=
  let rows :=
    filter (fun r : InventorySnapshot * Warehouse =>
              (inv_product_id (fst r) =? product_id)
              && String.eqb (w_type (snd r)) warehouse_type)
      (flat_map (fun s =>
         map (fun w => (s, w))
             (filter (fun w => w_id w =? inv_warehouse_id s)
                     (warehouses db)))
         (inventory db)) in
  sum (map (fun r => inv_current_qty (fst r)) rows).

(** [demand[product_id][delivery_date] += total_qty] on the nested
    [defaultdict]. *)
Definition add_demand (demand : dict (dict Q))
    (row : SalesOrderLine * SalesOrder) : dict (dict Q) :=
  let product_id := sol_product_id (fst row) in
  let delivery_date := so_delivery_date (snd row) in
  let by_date :=
    match dict_get product_id demand with
    | Some d => d
    | None => []
    end in
  let qty :=
    match dict_get delivery_date by_date with
    | Some q => q
    | None => 0%Q
    end in
  dict_set product_id
    (dict_set delivery_date (qty + sol_quantity (fst row))%Q by_date)
    demand.

Definition aggregate_demand_from_orders (db : Db)
    (start_date end_date : option Date) : dict (dict Q) :=
  let joined :=
    flat_map (fun l =>
      map (fun o => (l, o))
          (filter (fun o => so_id o =? sol_order_id l) (sales_orders db)))
      (sales_order_lines db) in
  let rows :=
    filter (fun r : SalesOrderLine * SalesOrder =>
      (String.eqb (so_status (snd r)) "new"
       || String.eqb (so_status (snd r)) "in_production")
      && match start_date with
         | Some d => d <=? so_delivery_date (snd r)
         | None => true
         end
      && match end_date with
         | Some d => so_delivery_date (snd r) <=? d
         | None => true
         end) joined in
  fold_left add_demand rows [].

Definition is_plan_of (product_id : Id) (production_date : Date)
    (p : ProductionPlanDay) : bool :=
  (ppd_product_id p =? product_id)
  && (ppd_production_date p =? production_date).

(** Applies [f] to the first element that satisfies [test]. *)
Fixpoint update_first {A : Type} (test : A -> bool) (f : A -> A)
    (l : list A) : list A :=
  match l with
  | [] => []
  | x :: t => if test x then f x :: t else x :: update_first test f t
  end.

Definition create_production_plan_day (db : Db) (product_id : Id)
    (production_date : Date) (planned_qty capacity_max : Q) : Db :=
  match find (is_plan_of product_id production_date) (plan_days db) with
  | Some _ =>
      with_plan_days db
        (update_first (is_plan_of product_id production_date)
           (fun existing =>
              let planned := (ppd_planned_qty existing + planned_qty)%Q in
              {| ppd_production_date := ppd_production_date existing;
                 ppd_product_id := ppd_product_id existing;
                 ppd_planned_qty := planned;
                 ppd_ordered_qty := ppd_ordered_qty existing;
                 ppd_remaining_qty :=
                   (planned - ppd_ordered_qty existing)%Q;
                 ppd_capacity_max := ppd_capacity_max existing |})
           (plan_days db))
  | None =>
      with_plan_days db
        (plan_days db ++
         [{| ppd_production_date := production_date;
             ppd_product_id := product_id;
             ppd_planned_qty := planned_qty;
             ppd_ordered_qty := 0;
             ppd_remaining_qty := planned_qty;
             ppd_capacity_max := capacity_max |}])
  end.

(** [business_id] is [LSX-yyyyMMdd-xxx]: a date and a number.  The column
    is unique. *)
Definition business_id_taken (db : Db) (production_date : Date) (no : Z)
  : bool :=
  existsb (fun o => (po_business_date o =? production_date)
                    && (po_business_no o =? no))
          (production_orders db).

(** The key of a new row: any key not yet in the table. *)
Definition new_order_id (db : Db) : Id :=
  1 + fold_left Z.max (map po_id (production_orders db)) 0.

Definition create_production_order_from_demand (db : Db)
    (product_id : Id) (production_date : Date) (planned_qty : Q)
    (order_type : string) : result (Db * ProductionOrder) :=
  match get_product db product_id with
  | None => Raise (ValueError "product" product_id)
  | Some product =>
      let count_today :=
        Z.of_nat (List.length
          (filter (fun o => po_production_date o =? production_date)
                  (production_orders db))) in
      let batch_count :=
        calculate_batch_count planned_qty (p_batch_spec product) in
      let po :=
        {| po_id := new_order_id db;
           po_business_date := production_date;
           po_business_no := count_today + 1;
           po_production_date := production_date;
           po_order_type := order_type;
           po_product_id := product_id;
           po_planned_qty := planned_qty;
           po_lines :=
             [{| pol_product_id := product_id;
                 pol_batch_spec := p_batch_spec product;
                 pol_batch_count := batch_count;
                 pol_planned_qty := planned_qty |}] |} in
      (* db.flush() *)
      if business_id_taken db production_date (count_today + 1)
      then Raise (IntegrityError "business_id" (count_today + 1))
      else Ok (with_production_orders db (production_orders db ++ [po]), po)
  end.

(** [max(0.0, total_demand - available_stock)] or the gross demand. *)
Definition net_demand_of (auto_deduct_stock : bool)
    (total_demand available_stock : Q) : Q :=
  if auto_deduct_stock
  then max2 0 (total_demand - available_stock)
  else total_demand.

(** Body of the loop over [sorted_dates]. *)
Definition allocate_date (start_date : Date) (product_id : Id)
    (order_type : string) (delivery_by_date : dict Q)
    (st : Db * list ProductionOrder * Q) (delivery_date : Date)
  : result (Db * list ProductionOrder * Q) :=
  let '(db, created_orders, remaining_demand) := st in
  let prod_date := delivery_date - 1 in
  let prod_date := if prod_date <? start_date then start_date
                   else prod_date in
  let demand_for_date :=
    match dict_get delivery_date delivery_by_date with
    | Some q => q
    | None => 0%Q
    end in
  let demand_to_fulfill := min2 demand_for_date remaining_demand in
  if Qle_bool demand_to_fulfill 0 then Ok st
  else
    let capacity_max := 1000%Q in
    let existing_plan :=
      find (is_plan_of product_id prod_date) (plan_days db) in
    let used_capacity :=
      match existing_plan with
      | Some p => ppd_ordered_qty p
      | None => 0%Q
      end in
    let available_capacity := (capacity_max - used_capacity)%Q in
    let '(prod_date, available_capacity) :=
      if Qle_bool available_capacity 0
      then (prod_date + 1, capacity_max)
      else (prod_date, available_capacity) in
    let qty_to_produce := min2 demand_to_fulfill available_capacity in
    match create_production_order_from_demand
            db product_id prod_date qty_to_produce order_type with
    | Raise e => Raise e
    | Ok (db, po) =>
        let db :=
          create_production_plan_day
            db product_id prod_date qty_to_produce capacity_max in
        Ok (db, created_orders ++ [po],
            (remaining_demand - qty_to_produce)%Q)
    end.

(** Body of the loop over [demand.items()]. *)
Definition plan_product (start_date : Date) (auto_deduct_stock : bool)
    (st : Db * list ProductionOrder) (item : Id * dict Q)
  : result (Db * list ProductionOrder) :=
  let (db, created_orders) := st in
  let (product_id, delivery_by_date) := item in
  match get_product db product_id with
  | None => Ok st
  | Some product =>
      let is_btp := String.eqb (p_group product) "BTP" in
      let order_type := if is_btp then "BTP"%string else "SP"%string in
      let warehouse_type :=
        if is_btp then "BTP"%string else "TP"%string in
      let total_demand := sum (dict_values delivery_by_date) in
      let net_demand :=
        net_demand_of auto_deduct_stock total_demand
          (get_available_stock db product_id warehouse_type) in
      if Qle_bool net_demand 0 then Ok st
      else
        let sorted_dates :=
          order_by Z.leb (dict_keys delivery_by_date) in
        match foldM (allocate_date start_date product_id order_type
                                   delivery_by_date)
                    sorted_dates (db, created_orders, net_demand) with
        | Ok (db, created_orders, _) => Ok (db, created_orders)
        | Raise e => Raise e
        end
  end.

(** The session after the run and the created orders. *)
Definition generate_production_orders_from_sales_orders (today : Date)
    (db : Db) (start_date end_date : option Date)
    (auto_deduct_stock : bool) : result (Db * list ProductionOrder) :=
  let start_date :=
    match start_date with Some d => d | None => today end in
  let end_date :=
    match end_date with Some d => d | None => start_date + 30 end in
  let demand :=
    aggregate_demand_from_orders db (Some start_date) (Some end_date) in
  foldM (plan_product start_date auto_deduct_stock) demand (db, []).

(** [create_manual_production_order]; the free-text note of the order is
    stored as given and is not part of the session value. *)
Definition create_manual_production_order (db : Db)
    (production_date : Date) (order_type : string) (product_id : Id)
    (planned_qty : Q) : result (Db * ProductionOrder) :=
  if negb (String.eqb order_type "SP" || String.eqb order_type "BTP")
  then Raise (ValueError "order_type" product_id)
  else if Qle_bool planned_qty 0
  then Raise (ValueError "planned_qty" product_id)
  else
    match get_product db product_id with
    | None => Raise (ValueError "product" product_id)
    | Some product =>
        let count_today :=
          Z.of_nat (List.length
            (filter (fun o => po_production_date o =? production_date)
                    (production_orders db))) in
        let batch_count :=
          calculate_batch_count planned_qty (p_batch_spec product) in
        let po :=
          {| po_id := new_order_id db;
             po_business_date := production_date;
             po_business_no := count_today + 1;
             po_production_date := production_date;
             po_order_type := order_type;
             po_product_id := product_id;
             po_planned_qty := planned_qty;
             po_lines :=
               [{| pol_product_id := product_id;
                   pol_batch_spec := p_batch_spec product;
                   pol_batch_count := batch_count;
                   pol_planned_qty := planned_qty |}] |} in
        (* db.flush() *)
        if business_id_taken db production_date (count_today + 1)
        then Raise (IntegrityError "business_id" (count_today + 1))
        else
          Ok (with_production_orders db (production_orders db ++ [po]), po)
    end.

End BatchCount.

Record PivotItem := {
  pi_material_id : Id;
  pi_material_code : string;
  pi_material_name : string;
  pi_uom : string;
  total_quantity : Q;
  pi_total_cost : Q
}.

Record Pivot := {
  pv_production_date : Date;
  items : list PivotItem
}.

(** Body of the loop over the requirements of one order. *)
Definition add_requirement (material_requirements : dict PivotItem)
    (req : BomService.Requirement) : dict PivotItem :=
  let material_id := BomService.r_material_id req in
  let material_requirements :=
    if dict_mem material_id material_requirements
    then material_requirements
    else
      dict_set material_id
        {| pi_material_id := material_id;
           pi_material_code := BomService.r_material_code req;
           pi_material_name := BomService.r_material_name req;
           pi_uom := BomService.r_uom req;
           total_quantity := 0;
           pi_total_cost := 0 |}
        material_requirements in
  match dict_get material_id material_requirements with
  | Some it =>
      dict_set material_id
        {| pi_material_id := pi_material_id it;
           pi_material_code := pi_material_code it;
           pi_material_name := pi_material_name it;
           pi_uom := pi_uom it;
           total_quantity :=
             (total_quantity it + BomService.required_quantity req)%Q;
           pi_total_cost :=
             (pi_total_cost it + BomService.total_cost req)%Q |}
        material_requirements
  | None => material_requirements
  end.

(** Body of the loop over the orders of the day, with its [try]. *)
Definition add_order_requirements (today : Date) (db : Db)
    (material_requirements : dict PivotItem) (po : ProductionOrder)
  : dict PivotItem :=
  match BomService.calculate_material_requirements_for_production_order
          today db (po_id po) with
  | Ok requirements =>
      fold_left add_requirement requirements material_requirements
  | Raise _ => material_requirements
  end.

Definition create_pivot_bom_lsx (today : Date) (db : Db)
    (production_date : Date) : Pivot :=
  let production_orders :=
    filter (fun po => po_production_date po =? production_date)
           (production_orders db) in
  match production_orders with
  | [] => {| pv_production_date := production_date; items := [] |}
  | _ =>
      {| pv_production_date := production_date;
         items :=
           dict_values
             (fold_left (add_order_requirements today db)
                        production_orders []) |}
  end.

End ProductionService.

(** ** [production_planning_service.py] *)

Module ProductionPlanningService.

Import BomService.

Record BtpDemand := {
  btp_id : Id;
  btp_code : string;
  btp_name : string;
  required_qty : Q;
  batch_count : Q;
  btp_uom : string
}.

(** Accumulation of one demand entry into the [btp_demand] dict: a known
    semi-product adds the quantity and keeps the greater batch count. *)
Definition merge_btp (btp_demand : dict BtpDemand) (d : BtpDemand)
  : dict BtpDemand :=
  match dict_get (btp_id d) btp_demand with
  | Some known =>
      dict_set (btp_id d)
        {| btp_id := btp_id known;
           btp_code := btp_code known;
           btp_name := btp_name known;
           required_qty := (required_qty known + required_qty d)%Q;
           batch_count := max2 (batch_count known) (batch_count d);
           btp_uom := btp_uom known |}
        btp_demand
  | None => dict_set (btp_id d) d btp_demand
  end.

(** The batch count of a semi-product demand: 1 unless the batch spec
    holds a positive number. *)
Definition btp_batch_count (required_qty : Q) (batch_spec : option string)
  : Q :=
  if truthy_str batch_spec then
    match first_number
            (match batch_spec with Some s => s | None => EmptyString end)
    with
    | Some batch_size =>
        if Qltb 0 batch_size
        then inject_Z (Qceiling (required_qty / batch_size))
        else 1%Q
    | None => 1%Q
    end
  else 1%Q.

(** The recursion follows the BOM and has no guard of its own: [depth]
    bounds the nesting of calls, and [None] is a run that needs more. *)
Fixpoint calculate_btp_demand_from_product (depth : nat) (db : Db)
    (product_id : Id) (planned_qty : Q)
  : option (result (list BtpDemand)) :=
  match depth with
  | O => None
  | S depth =>
      match get_product db product_id with
      | None => Some (Raise (ValueError "product" product_id))
      | Some _ =>
          let semi_products :=
            filter (fun r : BomSemiProduct * Product =>
                      bs_semi_product_id (fst r) =? product_id)
              (flat_map (fun bs =>
                 map (fun c => (bs, c))
                     (filter (fun c => p_id c =? bs_component_id bs)
                             (products db)))
                 (bom_semi_products db)) in
          let step (acc : option (result (dict BtpDemand)))
                   (r : BomSemiProduct * Product) :=
            match acc with
            | Some (Ok btp_demand) =>
                let (bom_semi, component) := r in
                if negb (String.eqb (p_group component) "BTP")
                then acc
                else
                  let required_qty :=
                    (planned_qty * bs_quantity bom_semi)%Q in
                  let batch_count :=
                    btp_batch_count required_qty (p_batch_spec component) in
                  match calculate_btp_demand_from_product
                          depth db (p_id component) required_qty with
                  | None => None
                  | Some (Raise e) => Some (Raise e)
                  | Some (Ok child_btp_demand) =>
                      let own :=
                        {| btp_id := p_id component;
                           btp_code := p_code component;
                           btp_name := p_name component;
                           required_qty := required_qty;
                           batch_count := batch_count;
                           btp_uom := bs_uom bom_semi |} in
                      Some (Ok (fold_left merge_btp child_btp_demand
                                          (merge_btp btp_demand own)))
                  end
            | _ => acc
            end in
          match fold_left step semi_products (Some (Ok [])) with
          | Some (Ok btp_demand) => Some (Ok (dict_values btp_demand))
          | Some (Raise e) => Some (Raise e)
          | None => None
          end
      end
  end.

Record MaterialPlan := {
  mp_material_id : Id;
  mp_material_code : string;
  mp_material_name : string;
  total_required_qty : Q;
  available_stock : Q;
  net_required_qty : Q;
  mp_uom : string
}.

(** An entry of the [material_requirements] dict of the plan. *)
Record Gross := {
  g_material_id : Id;
  g_material_code : string;
  g_material_name : string;
  g_total_required_qty : Q;
  g_uom : string
}.

Definition add_material (material_requirements : dict Gross)
    (mat : Requirement) : dict Gross :=
  let material_id := r_material_id mat in
  match dict_get material_id material_requirements with
  | Some g =>
      dict_set material_id
        {| g_material_id := g_material_id g;
           g_material_code := g_material_code g;
           g_material_name := g_material_name g;
           g_total_required_qty :=
             (g_total_required_qty g + required_quantity mat)%Q;
           g_uom := g_uom g |}
        material_requirements
  | None =>
      dict_set material_id
        {| g_material_id := material_id;
           g_material_code := r_material_code mat;
           g_material_name := r_material_name mat;
           g_total_required_qty := required_quantity mat;
           g_uom := r_uom mat |}
        material_requirements
  end.

(** Body of the loop over [production_orders], with its [try]. *)
Definition add_order (today : Date) (db : Db)
    (material_requirements : dict Gross) (po : ProductionOrder)
  : dict Gross :=
  match calculate_material_requirements_for_production_order
          today db (po_id po) with
  | Ok materials => fold_left add_material materials material_requirements
  | Raise _ => material_requirements
  end.

Definition nvl_stock (db : Db) (material_id : Id) : Q :=
  sum (map (fun r : InventorySnapshot * Warehouse =>
              inv_current_qty (fst r))
        (filter (fun r : InventorySnapshot * Warehouse =>
                   (inv_product_id (fst r) =? material_id)
                   && String.eqb (w_type (snd r)) "NVL")
           (flat_map (fun s =>
              map (fun w => (s, w))
                  (filter (fun w => w_id w =? inv_warehouse_id s)
                          (warehouses db)))
              (inventory db)))).

Definition plan_row (db : Db) (deduct_stock : bool) (item : Id * Gross)
  : MaterialPlan :=
  let (material_id, req) := item in
  let available_stock :=
    if deduct_stock then nvl_stock db material_id else 0%Q in
  let net_required_qty :=
    max2 0 (g_total_required_qty req - available_stock) in
  {| mp_material_id := g_material_id req;
     mp_material_code := g_material_code req;
     mp_material_name := g_material_name req;
     total_required_qty := g_total_required_qty req;
     available_stock := available_stock;
     net_required_qty := net_required_qty;
     mp_uom := g_uom req |}.

Definition orders_in_range (db : Db) (start_date end_date : Date)
  : list ProductionOrder :=
  filter (fun po => (start_date <=? po_production_date po)
                    && (po_production_date po <=? end_date))
         (production_orders db).

Definition calculate_material_requirement_plan (today : Date) (db : Db)
    (start_date end_date : option Date) (deduct_stock : bool)
  : list MaterialPlan :=
  let start_date :=
    match start_date with Some d => d | None => today end in
  let end_date :=
    match end_date with Some d => d | None => start_date + 30 end in
  let production_orders := orders_in_range db start_date end_date in
  let material_requirements :=
    fold_left (add_order today db) production_orders [] in
  map (plan_row db deduct_stock) material_requirements.

(** Body of the loop of [create_pivot_material_plan].  The test
    [if not material_id] never holds: the ids are [str] of a key. *)
Definition add_plan_row
    (material_aggregated : dict ProductionService.PivotItem)
    (req : MaterialPlan) : dict ProductionService.PivotItem :=
  let material_id := mp_material_id req in
  let material_aggregated :=
    if dict_mem material_id material_aggregated
    then material_aggregated
    else
      dict_set material_id
        {| ProductionService.pi_material_id := material_id;
           ProductionService.pi_material_code := mp_material_code req;
           ProductionService.pi_material_name := mp_material_name req;
           ProductionService.pi_uom := mp_uom req;
           ProductionService.total_quantity := 0;
           ProductionService.pi_total_cost := 0 |}
        material_aggregated in
  match dict_get material_id material_aggregated with
  | Some it =>
      dict_set material_id
        {| ProductionService.pi_material_id :=
             ProductionService.pi_material_id it;
           ProductionService.pi_material_code :=
             ProductionService.pi_material_code it;
           ProductionService.pi_material_name :=
             ProductionService.pi_material_name it;
           ProductionService.pi_uom := ProductionService.pi_uom it;
           ProductionService.total_quantity :=
             (ProductionService.total_quantity it + total_required_qty req)%Q;
           ProductionService.pi_total_cost :=
             ProductionService.pi_total_cost it |}
        material_aggregated
  | None => material_aggregated
  end.

Definition create_pivot_material_plan (today : Date) (db : Db)
    (production_date : Date) : ProductionService.Pivot :=
  let requirements :=
    calculate_material_requirement_plan
      today db (Some production_date) (Some production_date) false in
  {| ProductionService.pv_production_date := production_date;
     ProductionService.items :=
       dict_values (fold_left add_plan_row requirements []) |}.

End ProductionPlanningService.

(** ** Sample data *)

Module Samples.

Import BomService.
Local Open Scope string_scope.

Definition product (i : Id) (code group : string)
    (batch_spec : option string) : Product :=
  {| p_id := i; p_code := code; p_name := code; p_group := group;
     p_main_uom := "kg"; p_batch_spec := batch_spec;
     p_cost_price := None |}.

Definition edge (p m : Id) (q : Q) (c : option Q) (e : option Date)
  : BomMaterial :=
  {| bm_product_id := p; bm_material_id := m; bm_quantity := q;
     bm_uom := "kg"; bm_cost := c; bm_effective_date := e |}.

Definition component (p c : Id) (q : Q) : BomSemiProduct :=
  {| bs_semi_product_id := p; bs_component_id := c; bs_quantity := q;
     bs_uom := "kg"; bs_operation_sequence := None |}.

Definition order (i p : Id) (d : Date) (q : Q) : ProductionOrder :=
  {| po_id := i; po_business_date := d; po_business_no := 1;
     po_production_date := d;
     po_order_type := "SP"; po_product_id := p; po_planned_qty := q;
     po_lines := [] |}.

Definition empty_db : Db :=
  {| products := []; bom_materials := []; bom_semi_products := [];
     bom_labors := []; price_history := []; warehouses := [];
     inventory := []; sales_orders := []; sales_order_lines := [];
     plan_days := []; production_orders := [] |}.

Definition with_bom (ps : list Product) (ms : list BomMaterial)
    (cs : list BomSemiProduct) (os : list ProductionOrder) : Db :=
  {| products := ps; bom_materials := ms; bom_semi_products := cs;
     bom_labors := []; price_history := []; warehouses := [];
     inventory := []; sales_orders := []; sales_order_lines := [];
     plan_days := []; production_orders := os |}.

(** Finished good F (1) takes 1.5 of semi-product S (2) per unit; a batch
    of S takes 5 kg of material M (3); order 10 is for 100 F. *)
Definition two_level (batch_spec : option string) : Db :=
  with_bom
    [product 1 "F" "TP" None; product 2 "S" "BTP" batch_spec;
     product 3 "M" "NVL" None]
    [edge 2 3 5 None None]
    [component 1 2 (3 # 2)]
    [order 10 1 100 100].

(** F (1) takes material M (3): 2 kg from day 100, 3 kg from day 200. *)
Definition two_versions : Db :=
  with_bom
    [product 1 "F" "TP" None; product 3 "M" "NVL" None]
    [edge 1 3 2 None (Some 100); edge 1 3 3 None (Some 200)]
    []
    [order 10 1 150 1].

(** Product P (1) is ordered twice, 800 units each, for delivery on days
    100 and 101; planning starts on day 100. *)
Definition two_deliveries : Db :=
  {| products := [product 1 "P" "TP" None];
     bom_materials := []; bom_semi_products := []; bom_labors := [];
     price_history := []; warehouses := []; inventory := [];
     sales_orders :=
       [{| so_id := 1; so_delivery_date := 100; so_status := "new" |};
        {| so_id := 2; so_delivery_date := 101; so_status := "new" |}];
     sales_order_lines :=
       [{| sol_order_id := 1; sol_product_id := 1; sol_quantity := 800 |};
        {| sol_order_id := 2; sol_product_id := 1; sol_quantity := 800 |}];
     plan_days := []; production_orders := [] |}.

(** F (1) has one labor line: 2 units at 10 each, with a duration of 0
    minutes entered. *)
Definition zero_duration : Db :=
  {| products := [product 1 "F" "TP" None];
     bom_materials := []; bom_semi_products := [];
     bom_labors :=
       [{| bl_product_id := 1; bl_equipment := None; bl_labor_type := None;
           bl_quantity := Some 2%Q; bl_duration_minutes := Some 0;
           bl_unit_cost := Some 10%Q |}];
     price_history := []; warehouses := []; inventory := [];
     sales_orders := []; sales_order_lines := [];
     plan_days := []; production_orders := [] |}.

(** Order 7 is for a product that is not in the catalog. *)
Definition orphan_order : Db :=
  with_bom [] [] [] [order 7 99 100 1].

Definition sample_cost : CostData :=
  {| cd_product_id := 1; cd_product_code := "F"; cd_product_name := "F";
     cd_pricing_date := 100; total_material_cost := 5;
     total_labor_cost := 0; cd_total_cost := 5;
     material_details := []; labor_details := [] |}.

(** A costing that raises for product 2 and returns elsewhere. *)
Definition failing_for_2 (db : Db) (i : Id) : result CostData :=
  if Z.eqb i 2 then Raise (ValueError "costing" i) else Ok sample_cost.

End Samples.

Import BomService ProductionService ProductionPlanningService.

(** ** Vocabulary of the statements *)

Module Spec.

(** An entry of the price history that counts for a material as of a
    pricing date. *)
Definition quoted_by (material_id : Id) (pricing_date : Date)
    (h : MaterialPriceHistory) : Prop :=
  ph_material_id h = material_id /\ ph_quoted_date h <= pricing_date.

(** The cost of a labor line in the words of the data model: duration in
    hours times unit cost when a duration is given, be it zero, else
    quantity times unit cost; a missing number counts as zero. *)
Definition LaborLine_cost_as_stated (l : BomLabor) : Q :=
  match bl_duration_minutes l with
  | Some minutes => (inject_Z minutes / 60 * num (bl_unit_cost l))%Q
  | None => (num (bl_quantity l) * num (bl_unit_cost l))%Q
  end.

(** Cost additivity with the labor cost summed by that formula. *)
Definition cost_additivity_as_stated (today : Date) (db : Db) (p : Id)
    (d : option Date) : Prop :=
  forall cd,
    calculate_product_cost_from_bom today db p d = Ok cd ->
    cd_total_cost cd = (total_material_cost cd + total_labor_cost cd)%Q
    /\ total_material_cost cd
       = sum (map (fun l => (md_quantity l * md_unit_cost l)%Q)
                  (material_details cd))
    /\ total_labor_cost cd
       == sum (map LaborLine_cost_as_stated
                   (filter (fun l => bl_product_id l =? p)
                           (bom_labors db))).

(** The same formula with a duration of zero counted as not given:
    duration in hours times unit cost when a duration other than zero is
    given, else quantity times unit cost. *)
Definition LaborLine_cost (l : BomLabor) : Q :=
  if truthy_int (bl_duration_minutes l)
  then (inject_Z (int (bl_duration_minutes l)) / 60
        * num (bl_unit_cost l))%Q
  else (num (bl_quantity l) * num (bl_unit_cost l))%Q.

(** A BOM material edge counts as of a date when it is undated or dated
    on or before it; without a date every edge counts. *)
Definition in_force (as_of : option Date) (bm : BomMaterial) : Prop :=
  match as_of, bm_effective_date bm with
  | Some d, Some e => e <= d
  | _, _ => True
  end.

(** [bm] is a version of the edge from product [p] to material [m]. *)
Definition version_of (db : Db) (p m : Id) (as_of : option Date)
    (bm : BomMaterial) : Prop :=
  In bm (bom_materials db) /\ bm_product_id bm = p /\
  bm_material_id bm = m /\ in_force as_of bm.

(** A dated version is at least as recent as an undated one, and as a
    dated one of the same or an earlier date. *)
Definition as_recent_as (a b : BomMaterial) : Prop :=
  match bm_effective_date a, bm_effective_date b with
  | Some x, Some y => y <= x
  | Some _, None => True
  | None, Some _ => False
  | None, None => True
  end.

Definition latest_version (db : Db) (p m : Id) (as_of : option Date)
    (bm : BomMaterial) : Prop :=
  version_of db p m as_of bm /\
  forall bm', version_of db p m as_of bm' -> as_recent_as bm bm'.

(** The unit cost of a line built from edge [bm] to material [m]: the
    price of the material as of the pricing date, or 0 without one, when
    the cost cached on the edge is null or zero; else the cached cost. *)
Definition unit_cost_rule (today : Date) (db : Db) (d : Date) (m : Id)
    (bm : BomMaterial) (line : MaterialDetail) : Prop :=
  ((bm_cost bm = None \/ exists c, bm_cost bm = Some c /\ c == 0) ->
   md_unit_cost line
   == match get_material_price today db m (Some d) with
      | Some price => price
      | None => 0
      end)
  /\ (forall c, bm_cost bm = Some c -> ~ c == 0 -> md_unit_cost line = c).

(** [line] is the line of material [k] in the costing of [p] as of [d]: it
    is built from the latest version in force of the edge from [p] to [k],
    with the quantity of that version, the unit cost of the rule above and
    their product as line cost. *)
Definition line_of_material (today : Date) (db : Db) (p : Id) (d : Date)
    (k : Id) (line : MaterialDetail) : Prop :=
  exists bm m,
    In m (products db) /\ p_id m = k /\
    latest_version db p k (Some d) bm /\
    line = material_detail_of today db d (bom_item_of (bm, m)) /\
    md_material_code line = p_code m /\
    md_quantity line = bm_quantity bm /\
    md_line_cost line = (bm_quantity bm * md_unit_cost line)%Q /\
    unit_cost_rule today db d k bm line.

(** The explosion of [q] units of [p] requires, of every material, [q]
    times the quantity of the latest version of the edge as of a date. *)
Definition explosion_uses_latest_as_of (today : Date) (db : Db) (p : Id)
    (q : Q) (as_of : Date) : Prop :=
  forall bm,
    latest_version db p (bm_material_id bm) (Some as_of) bm ->
    exists r,
      In r (explode today db p q) /\
      r_material_id r = bm_material_id bm /\
      required_quantity r == q * bm_quantity bm.

(** The sessions reached from [db0] by assignments to [cost_price]. *)
Inductive repriced (db0 : Db) : Db -> Prop :=
| repriced_refl : repriced db0 db0
| repriced_step (db : Db) (i : Id) (c : Q) :
    repriced db0 db -> repriced db0 (set_cost_price db i c).

(** The outcome of a call is a result, not an exception. *)
Definition succeeds {A : Type} (r : result A) : bool :=
  match r with Ok _ => true | Raise _ => false end.

(** The material lists of the orders whose explosion does not raise. *)
Definition exploded_orders (today : Date) (db : Db)
    (orders : list ProductionOrder) : list (list Requirement) :=
  flat_map (fun po =>
    match calculate_material_requirements_for_production_order
            today db (po_id po) with
    | Ok materials => [materials]
    | Raise _ => []
    end) orders.

(** The ids of the orders whose explosion raises. *)
Definition skipped_orders (today : Date) (db : Db)
    (orders : list ProductionOrder) : list Id :=
  map po_id
    (filter (fun po =>
       negb (succeeds
               (calculate_material_requirements_for_production_order
                  today db (po_id po)))) orders).

(** Row [q] is row [q0] with its cost price as it was, or replaced by
    the total cost computed for it on [db0]. *)
Definition cost_kept_or_recomputed (today : Date) (db0 : Db)
    (q0 q : Product) : Prop :=
  p_id q = p_id q0 /\
  (p_cost_price q = p_cost_price q0 \/
   exists cd,
     calculate_product_cost_from_bom today db0 (p_id q0) None = Ok cd /\
     p_cost_price q = Some (cd_total_cost cd)).

Definition tracked (today : Date) (db0 db : Db) : Prop :=
  repriced db0 db /\
  Forall2 (cost_kept_or_recomputed today db0) (products db0) (products db).

(** Every row of product [i] stores the cost price [c]. *)
Definition settled (i : Id) (c : Q) (db : Db) : Prop :=
  forall q, In q (products db) -> p_id q = i -> p_cost_price q = Some c.

Definition tracked_and_settled (today : Date) (db0 : Db) (i : Id) (c : Q)
    (db : Db) : Prop :=
  tracked today db0 db /\ settled i c db.

(** The nested lookup [demand[p][d]], 0 when a key is missing. *)
Definition demand_at (demand : dict (dict Q)) (p : Id) (d : Date) : Q :=
  match dict_get p demand with
  | Some by_date =>
      match dict_get d by_date with
      | Some q => q
      | None => 0%Q
      end
  | None => 0%Q
  end.

(** An order counts for the demand of a period. *)
Definition open_order (start_date end_date : option Date)
    (o : SalesOrder) : bool :=
  (String.eqb (so_status o) "new"
   || String.eqb (so_status o) "in_production")
  && match start_date with
     | Some d => d <=? so_delivery_date o
     | None => true
     end
  && match end_date with
     | Some d => so_delivery_date o <=? d
     | None => true
     end.

(** The quantities of the order lines of product [p] that belong to an
    open order delivered on day [d]. *)
Definition ordered_quantities (db : Db) (start_date end_date : option Date)
    (p : Id) (d : Date) : list Q :=
  flat_map (fun l =>
    map (fun _ => sol_quantity l)
      (filter (fun o =>
                 (so_id o =? sol_order_id l)
                 && open_order start_date end_date o
                 && (sol_product_id l =? p)
                 && (so_delivery_date o =? d))
              (sales_orders db)))
    (sales_order_lines db).

(** A dict whose keys are distinct and are the ids of its values. *)
Definition keyed {V : Type} (id_of : V -> Id) (d : dict V) : Prop :=
  NoDup (dict_keys d) /\ Forall (fun kv => id_of (snd kv) = fst kv) d.

(** Requirement [r'] is requirement [r] with its quantity and cost
    multiplied by [k]. *)
Definition scaled (k : Q) (r r' : Requirement) : Prop :=
  r_material_id r' = r_material_id r /\
  r_material_code r' = r_material_code r /\
  r_material_name r' = r_material_name r /\
  r_uom r' = r_uom r /\
  unit_cost r' = unit_cost r /\
  required_quantity r' == k * required_quantity r /\
  total_cost r' == k * total_cost r.

(** The quantity of material [m] in a list of requirements. *)
Definition required_of (m : Id) (reqs : list Requirement) : Q :=
  sum (map required_quantity
           (filter (fun r => r_material_id r =? m) reqs)).

(** The cost of material [m] in a list of requirements. *)
Definition cost_of (m : Id) (reqs : list Requirement) : Q :=
  sum (map total_cost (filter (fun r => r_material_id r =? m) reqs)).

(** The session differs from [db0] in the cost prices only. *)
Definition same_but_cost_prices (db0 db : Db) : Prop :=
  map (fun p => (p_id p, p_code p, p_name p, p_group p, p_main_uom p,
                 p_batch_spec p)) (products db)
  = map (fun p => (p_id p, p_code p, p_name p, p_group p, p_main_uom p,
                   p_batch_spec p)) (products db0)
  /\ bom_materials db = bom_materials db0
  /\ bom_semi_products db = bom_semi_products db0
  /\ bom_labors db = bom_labors db0
  /\ price_history db = price_history db0
  /\ warehouses db = warehouses db0
  /\ inventory db = inventory db0
  /\ sales_orders db = sales_orders db0
  /\ sales_order_lines db = sales_order_lines db0
  /\ plan_days db = plan_days db0
  /\ production_orders db = production_orders db0.

(** The session differs from [db0] in the plan and the orders only. *)
Definition same_but_plan_and_orders (db0 db : Db) : Prop :=
  products db = products db0
  /\ bom_materials db = bom_materials db0
  /\ bom_semi_products db = bom_semi_products db0
  /\ bom_labors db = bom_labors db0
  /\ price_history db = price_history db0
  /\ warehouses db = warehouses db0
  /\ inventory db = inventory db0
  /\ sales_orders db = sales_orders db0
  /\ sales_order_lines db = sales_order_lines db0.

(** An order made by the allocation for product [pid]. *)
Definition good_order (start_date : Date) (pid : Id) (o : ProductionOrder)
  : Prop :=
  po_product_id o = pid /\ (0 < po_planned_qty o)%Q /\
  start_date <= po_production_date o /\
  exists line, po_lines o = [line] /\
               pol_planned_qty line = po_planned_qty o.

(** The quantity the orders plan for product [pid]. *)
Definition planned_for (pid : Id) (orders : list ProductionOrder) : Q :=
  sum (map po_planned_qty
           (filter (fun o => po_product_id o =? pid) orders)).

(** The net demand of a product with demand [by_date], at least 0; 0 for a
    product that is not in the catalog. *)
Definition net_demand_bound (auto_deduct_stock : bool) (db : Db) (pid : Id)
    (by_date : dict Q) : Q :=
  match get_product db pid with
  | None => 0%Q
  | Some product =>
      max2 0
        (net_demand_of auto_deduct_stock (sum (dict_values by_date))
           (get_available_stock db pid
              (if String.eqb (p_group product) "BTP"
               then "BTP"%string else "TP"%string)))
  end.

(** Dict [d'] is dict [d] with every requirement multiplied by [k]. *)
Definition scaled_dict (k : Q) (d d' : dict Requirement) : Prop :=
  Forall2 (fun kv kv' : Z * Requirement =>
             fst kv' = fst kv /\ scaled k (snd kv) (snd kv')) d d'.

(** The gross quantity of material [m] in the dict of the plan. *)
Definition gross_at (m : Id) (d : dict Gross) : Q :=
  match dict_get m d with
  | Some g => g_total_required_qty g
  | None => 0%Q
  end.

(** The quantity and the cost of material [m] in the dict of a pivot. *)
Definition quantity_at (m : Id) (d : dict PivotItem) : Q :=
  match dict_get m d with
  | Some it => total_quantity it
  | None => 0%Q
  end.

Definition pivot_cost_at (m : Id) (d : dict PivotItem) : Q :=
  match dict_get m d with
  | Some it => pi_total_cost it
  | None => 0%Q
  end.

(** [c] is the total cost the costing computes for product [i] on
    session [db0], as of today. *)
Definition costed_on (today : Date) (db0 : Db) (i : Id) (c : Q) : Prop :=
  exists cd,
    calculate_product_cost_from_bom today db0 i None = Ok cd /\
    cd_total_cost cd = c.

(** Component [a] is not after component [b] in the order of operations:
    by ascending sequence number, components without a number last. *)
Definition operation_before (a b : SemiItem) : Prop :=
  match operation_sequence a, operation_sequence b with
  | Some x, Some y => x <= y
  | Some _, None => True
  | None, Some _ => False
  | None, None => True
  end.

(** The demand entry is for a semi-product of the catalog. *)
Definition btp_of_catalog (db : Db) (d : BtpDemand) : Prop :=
  exists c, In c (products db) /\ p_id c = btp_id d /\
            p_group c = "BTP"%string.

(** No BOM row of the session has a negative quantity. *)
Definition bom_quantities_nonnegative (db : Db) : Prop :=
  (forall bm, In bm (bom_materials db) -> (0 <= bm_quantity bm)%Q)
  /\ (forall bs, In bs (bom_semi_products db) -> (0 <= bs_quantity bs)%Q).

End Spec.
Import Spec.

(** * Properties *)

(** ** Ordering and dictionaries *)

Section Ordering.

Context {A : Type} (first : A -> A -> bool).

Lemma insert_by_In (x y : A) (l : list A) :
  In y (insert_by first x l) <-> y = x \/ In y l.
Proof.
  induction l as [|z t IH]; simpl.
  - intuition.
  - destruct (first x z); simpl; [intuition|].
    rewrite IH. intuition.
Qed.

Lemma order_by_In (y : A) (l : list A) :
  In y (order_by first l) <-> In y l.
Proof.
  induction l as [|x t IH]; simpl; [tauto|].
  unfold order_by in *. simpl. rewrite insert_by_In, IH. intuition.
Qed.

Hypothesis first_total : forall a b, first a b = true \/ first b a = true.
Hypothesis first_trans :
  forall a b c, first a b = true -> first b c = true -> first a c = true.

Lemma insert_by_sorted (x : A) (l : list A) :
  StronglySorted (comes_first first) l ->
  StronglySorted (comes_first first) (insert_by first x l).
Proof.
  induction 1 as [|z t Hs IH Hall]; simpl.
  - repeat constructor.
  - destruct (first x z) eqn:E.
    + constructor; [constructor; assumption|].
      constructor; [exact E|].
      rewrite Forall_forall in *. intros w Hw.
      apply first_trans with z; [exact E | apply Hall, Hw].
    + constructor; [exact IH|].
      rewrite Forall_forall in *. intros w Hw.
      apply insert_by_In in Hw. destruct Hw as [->|Hw].
      * destruct (first_total x z) as [H|H]; [congruence | exact H].
      * apply Hall, Hw.
Qed.

Lemma order_by_sorted (l : list A) :
  StronglySorted (comes_first first) (order_by first l).
Proof.
  induction l as [|x t IH]; simpl; [constructor|].
  apply insert_by_sorted, IH.
Qed.

(** In a sorted list, the first element that passes a test comes before
    every other element that passes it. *)
Lemma find_sorted_first (test : A -> bool) (l : list A) (x : A) :
  StronglySorted (comes_first first) l ->
  find test l = Some x ->
  forall y, In y l -> test y = true -> first x y = true.
Proof.
  induction 1 as [|z t Hs IH Hall]; simpl; [discriminate|].
  intros Hf y Hy Ht. destruct (test z) eqn:E.
  - injection Hf as <-. destruct Hy as [->|Hy].
    + destruct (first_total y y); assumption.
    + rewrite Forall_forall in Hall. apply Hall, Hy.
  - destruct Hy as [->|Hy]; [congruence|]. now apply IH.
Qed.

End Ordering.

Lemma desc_nullslast_total (a b : option Z) :
  desc_nullslast a b = true \/ desc_nullslast b a = true.
Proof.
  destruct a, b; simpl; auto. rewrite !Z.leb_le. lia.
Qed.

Lemma desc_nullslast_trans (a b c : option Z) :
  desc_nullslast a b = true -> desc_nullslast b c = true ->
  desc_nullslast a c = true.
Proof.
  destruct a, b, c; simpl; auto; try discriminate.
  rewrite !Z.leb_le. lia.
Qed.

Section Dict.

Context {V : Type}.

Lemma dict_get_set (k k' : Z) (v : V) (d : dict V) :
  dict_get k' (dict_set k v d) =
  if k =? k' then Some v else dict_get k' d.
Proof.
  induction d as [|[j w] t IH]; simpl.
  - reflexivity.
  - destruct (Z.eqb_spec j k) as [->|Hjk]; simpl.
    + destruct (k =? k'); reflexivity.
    + rewrite IH. destruct (Z.eqb_spec j k') as [->|Hjk']; [|reflexivity].
      destruct (Z.eqb_spec k k'); [congruence | reflexivity].
Qed.

Lemma dict_get_None_keys (k : Z) (d : dict V) :
  dict_get k d = None <-> ~ In k (dict_keys d).
Proof.
  induction d as [|[j w] t IH]; simpl; [tauto|].
  destruct (j =? k) eqn:E.
  - apply Z.eqb_eq in E. split; [discriminate | intros H; destruct H; auto].
  - apply Z.eqb_neq in E. rewrite IH. tauto.
Qed.

Lemma dict_set_fresh (k : Z) (v : V) (d : dict V) :
  dict_get k d = None -> dict_set k v d = d ++ [(k, v)].
Proof.
  induction d as [|[j w] t IH]; simpl; [reflexivity|].
  destruct (j =? k); [discriminate|]. intros H. now rewrite IH.
Qed.

Lemma dict_set_keys (k : Z) (v : V) (d : dict V) :
  dict_keys (dict_set k v d) =
  if dict_mem k d then dict_keys d else dict_keys d ++ [k].
Proof.
  unfold dict_mem. induction d as [|[j w] t IH]; simpl; [reflexivity|].
  destruct (j =? k) eqn:E; simpl.
  - reflexivity.
  - rewrite IH. now destruct (dict_get k t).
Qed.

Lemma dict_get_In (k : Z) (v : V) (d : dict V) :
  dict_get k d = Some v -> In (k, v) d.
Proof.
  induction d as [|[j w] t IH]; simpl; [discriminate|].
  destruct (j =? k) eqn:E.
  - apply Z.eqb_eq in E. intros [= ->]. left. now subst.
  - auto.
Qed.

Lemma dict_In_get (k : Z) (v : V) (d : dict V) :
  NoDup (dict_keys d) -> In (k, v) d -> dict_get k d = Some v.
Proof.
  induction d as [|[j w] t IH]; simpl; [tauto|].
  intros Hnd [H|H].
  - injection H as -> ->. now rewrite Z.eqb_refl.
  - inversion Hnd as [|? ? Hnot Hnd']; subst.
    destruct (j =? k) eqn:E; [|auto].
    apply Z.eqb_eq in E. subst j. exfalso. apply Hnot.
    unfold dict_keys. change k with (fst (k, v)). now apply in_map.
Qed.

End Dict.

(** ** Pricing lookup *)

Lemma quoted_by_filter (db : Db) (m : Id) (d : Date)
    (h : MaterialPriceHistory) :
  In h (filter (fun h => (ph_material_id h =? m) && (ph_quoted_date h <=? d))
               (price_history db)) <->
  In h (price_history db) /\ quoted_by m d h.
Proof.
  rewrite filter_In, andb_true_iff, Z.eqb_eq, Z.leb_le.
  unfold quoted_by. tauto.
Qed.

Lemma latest_quote_total (a b : MaterialPriceHistory) :
  (ph_quoted_date b <=? ph_quoted_date a) = true \/
  (ph_quoted_date a <=? ph_quoted_date b) = true.
Proof. rewrite !Z.leb_le. lia. Qed.

Lemma latest_quote_trans (a b c : MaterialPriceHistory) :
  (ph_quoted_date b <=? ph_quoted_date a) = true ->
  (ph_quoted_date c <=? ph_quoted_date b) = true ->
  (ph_quoted_date c <=? ph_quoted_date a) = true.
Proof. rewrite !Z.leb_le. lia. Qed.

(** C4.  [get_material_price] returns the price of an entry of the material
    quoted on or before the pricing date whose quoted date is the greatest
    among such entries, and returns [None] exactly when the material has no
    entry quoted on or before the pricing date.  Without a pricing date the
    lookup is as of today. *)
Theorem get_material_price_latest_quote :
  forall (today : Date) (db : Db) (m : Id) (d : Date),
    (get_material_price today db m (Some d) = None <->
     forall h, In h (price_history db) -> ~ quoted_by m d h)
    /\ (forall price,
          get_material_price today db m (Some d) = Some price ->
          exists h,
            In h (price_history db) /\ quoted_by m d h /\
            ph_price h = price /\
            forall h', In h' (price_history db) -> quoted_by m d h' ->
                       ph_quoted_date h' <= ph_quoted_date h)
    /\ get_material_price today db m None
       = get_material_price today db m (Some today).
Proof.
  intros today db m d. unfold get_material_price.
  set (first := fun a b => ph_quoted_date b <=? ph_quoted_date a).
  set (sel := filter _ (price_history db)).
  pose proof (order_by_sorted first latest_quote_total latest_quote_trans sel)
    as Hsorted.
  pose proof (fun h => order_by_In first h sel) as Hin.
  destruct (order_by first sel) as [|h0 t] eqn:E.
  - split; [|split; [discriminate | reflexivity]].
    split; [|reflexivity].
    intros _ h Hh Hq.
    apply (Hin h). apply quoted_by_filter. now split.
  - split; [|split; [|reflexivity]].
    + split; [discriminate|].
      intros Hnone. exfalso.
      assert (Hh0 : In h0 sel) by (apply Hin; now left).
      apply quoted_by_filter in Hh0. destruct Hh0 as [Hh0 Hq].
      exact (Hnone h0 Hh0 Hq).
    + intros price [= <-]. exists h0.
      assert (Hh0 : In h0 sel) by (apply Hin; now left).
      apply quoted_by_filter in Hh0. destruct Hh0 as [Hh0 Hq].
      repeat split; try assumption; try apply Hq.
      intros h' Hh' Hq'.
      assert (Hsel : In h' (h0 :: t)).
      { apply Hin. apply quoted_by_filter. now split. }
      inversion Hsorted as [|? ? _ Hall]; subst.
      destruct Hsel as [<-|Hsel]; [lia|].
      rewrite Forall_forall in Hall. specialize (Hall h' Hsel).
      unfold comes_first, first in Hall. now apply Z.leb_le in Hall.
Qed.

(** ** Costing *)

Lemma fold_left_Qplus_eq (l : list Q) (a b : Q) :
  a == b -> fold_left Qplus l a == fold_left Qplus l b.
Proof.
  revert a b. induction l as [|x t IH]; simpl; intros a b H; [exact H|].
  apply IH. now rewrite H.
Qed.

Lemma sum_map_Qeq {A : Type} (f g : A -> Q) (l : list A) :
  (forall x, f x == g x) -> sum (map f l) == sum (map g l).
Proof.
  intros H. unfold sum. generalize 0%Q as a.
  induction l as [|x t IH]; simpl; intros a; [reflexivity|].
  rewrite IH. apply fold_left_Qplus_eq. now rewrite H.
Qed.

(** The accumulating loops of the costing: a running total and a list of
    detail lines. *)
Lemma fold_left_total_details {A D : Type} (detail : A -> D) (line : D -> Q)
    (l : list A) (total : Q) (details : list D) :
  fold_left (fun (acc : Q * list D) x =>
               ((fst acc + line (detail x))%Q, snd acc ++ [detail x]))
            l (total, details)
  = (fold_left Qplus (map (fun x => line (detail x)) l) total,
     details ++ map detail l).
Proof.
  revert total details. induction l as [|x t IH]; simpl; intros total details.
  - now rewrite app_nil_r.
  - rewrite IH. now rewrite <- app_assoc.
Qed.

Lemma truthy_num_false (x : option Q) :
  truthy_num x = false -> num x == 0.
Proof.
  destruct x as [q|]; simpl; [|reflexivity].
  intros H. apply negb_false_iff in H. now apply Qeq_bool_eq in H.
Qed.

Lemma labor_cost_of_spec (l : BomLabor) :
  labor_cost_of l == LaborLine_cost l.
Proof.
  unfold labor_cost_of, LaborLine_cost.
  destruct (truthy_num (bl_unit_cost l)) eqn:Eu;
    destruct (truthy_int (bl_duration_minutes l)) eqn:Ed; simpl.
  - reflexivity.
  - destruct (truthy_num (bl_quantity l)) eqn:Eq; [reflexivity|].
    rewrite (truthy_num_false _ Eq). ring.
  - rewrite (truthy_num_false _ Eu). ring.
  - rewrite (truthy_num_false _ Eu). ring.
Qed.

(** What [calculate_product_cost_from_bom] returns for a product that
    exists. *)
Lemma calculate_product_cost_from_bom_Ok (today : Date) (db : Db) (p : Id)
    (d : option Date) (product : Product) :
  get_product db p = Some product ->
  let pricing_date := match d with Some x => x | None => today end in
  let lines :=
    map (material_detail_of today db pricing_date)
        (get_bom_materials db p (Some pricing_date)) in
  let labor :=
    map labor_detail_of
        (filter (fun l => bl_product_id l =? p) (bom_labors db)) in
  calculate_product_cost_from_bom today db p d
  = Ok {| cd_product_id := p;
          cd_product_code := p_code product;
          cd_product_name := p_name product;
          cd_pricing_date := pricing_date;
          total_material_cost := sum (map md_line_cost lines);
          total_labor_cost := sum (map ld_line_cost labor);
          cd_total_cost :=
            (sum (map md_line_cost lines) + sum (map ld_line_cost labor))%Q;
          material_details := lines;
          labor_details := labor |}.
Proof.
  intros Hp pricing_date lines labor.
  unfold calculate_product_cost_from_bom. rewrite Hp.
  fold pricing_date.
  rewrite (fold_left_total_details
             (material_detail_of today db pricing_date) md_line_cost).
  rewrite (fold_left_total_details labor_detail_of ld_line_cost).
  simpl. unfold sum, lines, labor. now rewrite !map_map.
Qed.

(** The two readings of the labor formula part only on a duration of
    zero. *)
Lemma LaborLine_cost_as_stated_eq (l : BomLabor) :
  bl_duration_minutes l <> Some 0 ->
  LaborLine_cost l = LaborLine_cost_as_stated l.
Proof.
  unfold LaborLine_cost, LaborLine_cost_as_stated, truthy_int.
  destruct (bl_duration_minutes l) as [m|]; simpl; [|reflexivity].
  intros H. destruct (Z.eqb_spec m 0) as [->|_]; [now elim H|reflexivity].
Qed.


(** C5, as stated, fails on a duration of zero: for a labor line of 2
    units at 10 each with a duration of 0 minutes the labor cost is 20,
    where duration in hours times unit cost gives 0. *)
Lemma zero_duration_labor_costed_by_quantity :
  ~ cost_additivity_as_stated 0 Samples.zero_duration 1 (Some 0).
Proof.
  intros H.
  destruct (H _ eq_refl) as (_ & _ & Hl).
  vm_compute in Hl. discriminate.
Qed.

(** ** BOM versions *)

Section GroupFirst.

(** The loop that keeps, for every key, the first row that carries it. *)
Context {R V : Type} (key : R -> Z) (val : R -> V).

Lemma keep_first_get (rows : list R) (acc : dict V) (k : Z) :
  dict_get k (fold_left (keep_first key val) rows acc) =
  match dict_get k acc with
  | Some v => Some v
  | None => option_map val (find (fun r => key r =? k) rows)
  end.
Proof.
  revert acc. induction rows as [|r t IH]; simpl; intros acc.
  - now destruct (dict_get k acc).
  - rewrite IH. unfold keep_first, dict_mem.
    destruct (dict_get (key r) acc) as [w|] eqn:E.
    + destruct (dict_get k acc) eqn:E'; [reflexivity|].
      destruct (Z.eqb_spec (key r) k); [congruence | reflexivity].
    + rewrite dict_get_set.
      destruct (Z.eqb_spec (key r) k) as [Hk|Hne].
      * subst k. now rewrite E.
      * reflexivity.
Qed.

Lemma keep_first_NoDup (rows : list R) (acc : dict V) :
  NoDup (dict_keys acc) ->
  NoDup (dict_keys (fold_left (keep_first key val) rows acc)).
Proof.
  revert acc. induction rows as [|r t IH]; simpl; intros acc H; [exact H|].
  apply IH. unfold keep_first, dict_mem.
  destruct (dict_get (key r) acc) eqn:E; [exact H|].
  rewrite dict_set_fresh by exact E.
  unfold dict_keys. rewrite map_app. simpl.
  apply NoDup_app; [exact H | repeat constructor; intros [] |].
  intros x Hx [<-|[]]. now apply dict_get_None_keys in E.
Qed.

Lemma keep_first_entries (P : Z -> V -> Prop) (rows : list R)
    (acc : dict V) :
  (forall r, In r rows -> P (key r) (val r)) ->
  Forall (fun kv => P (fst kv) (snd kv)) acc ->
  Forall (fun kv => P (fst kv) (snd kv))
         (fold_left (keep_first key val) rows acc).
Proof.
  revert acc. induction rows as [|r t IH]; simpl; intros acc Hr H;
    [exact H|].
  apply IH; [auto|]. unfold keep_first, dict_mem.
  destruct (dict_get (key r) acc) eqn:E; [exact H|].
  rewrite dict_set_fresh by exact E.
  apply Forall_app. split; [exact H|]. constructor; [|constructor].
  simpl. auto.
Qed.

End GroupFirst.

Lemma bom_material_rows_In (db : Db) (p : Id) (as_of : option Date)
    (bm : BomMaterial) (m : Product) :
  In (bm, m) (bom_material_rows db p as_of) <->
  In m (products db) /\ version_of db p (p_id m) as_of bm.
Proof.
  unfold bom_material_rows, version_of, in_force.
  assert (Hjoin : forall r : BomMaterial * Product,
    In r (filter (fun r => bm_product_id (fst r) =? p)
            (flat_map (fun bm =>
               map (fun m => (bm, m))
                   (filter (fun m => p_id m =? bm_material_id bm)
                           (products db)))
               (bom_materials db))) <->
    In (snd r) (products db) /\ In (fst r) (bom_materials db) /\
    bm_product_id (fst r) = p /\ bm_material_id (fst r) = p_id (snd r)).
  { intros [b x]. rewrite filter_In, in_flat_map, Z.eqb_eq. simpl. split.
    - intros [[b' [Hb Hx]] Hp]. apply in_map_iff in Hx.
      destruct Hx as [x' [[= <- <-] Hx]]. apply filter_In in Hx.
      rewrite Z.eqb_eq in Hx. intuition.
    - intros (Hx & Hb & Hp & Hm). split; [|exact Hp].
      exists b. split; [exact Hb|]. apply in_map, filter_In.
      rewrite Z.eqb_eq. auto. }
  destruct as_of as [d|].
  - rewrite filter_In, Hjoin. simpl.
    destruct (bm_effective_date bm) as [e|]; [rewrite Z.leb_le|]; intuition.
  - rewrite Hjoin. simpl.
    destruct (bm_effective_date bm); intuition.
Qed.

Lemma desc_nullslast_as_recent_as (a b : BomMaterial) :
  desc_nullslast (bm_effective_date a) (bm_effective_date b) = true <->
  as_recent_as a b.
Proof.
  unfold as_recent_as.
  destruct (bm_effective_date a), (bm_effective_date b); simpl;
    rewrite ?Z.leb_le; intuition discriminate.
Qed.

(** The entries of the [materials_map] of [get_bom_materials]. *)
Lemma get_bom_materials_map (db : Db) (p : Id) (as_of : option Date) :
  let first := fun a b : BomMaterial * Product =>
    desc_nullslast (bm_effective_date (fst a)) (bm_effective_date (fst b)) in
  let rows := order_by first (bom_material_rows db p as_of) in
  let materials_map :=
    fold_left (keep_first (fun r => p_id (snd r)) bom_item_of) rows [] in
  get_bom_materials db p as_of = dict_values materials_map
  /\ NoDup (dict_keys materials_map)
  /\ Forall (fun kv => material_id (snd kv) = fst kv) materials_map
  /\ forall k,
       dict_get k materials_map
       = option_map bom_item_of (find (fun r => p_id (snd r) =? k) rows).
Proof.
  intros first rows materials_map. repeat split.
  - apply keep_first_NoDup. constructor.
  - apply (keep_first_entries _ _ (fun k v => material_id v = k)).
    + now intros [bm m] _.
    + constructor.
  - intros k. unfold materials_map. now rewrite keep_first_get.
Qed.

Lemma get_bom_materials_ids (db : Db) (p : Id) (as_of : option Date) :
  NoDup (map material_id (get_bom_materials db p as_of)).
Proof.
  destruct (get_bom_materials_map db p as_of) as (-> & Hnd & Hall & _).
  set (mm := fold_left _ _ _) in *.
  replace (map material_id (dict_values mm)) with (dict_keys mm);
    [exact Hnd|].
  unfold dict_keys, dict_values. rewrite map_map.
  apply map_ext_in. intros kv Hkv. rewrite Forall_forall in Hall.
  symmetry. now apply Hall.
Qed.

Lemma get_bom_materials_In (db : Db) (p : Id) (as_of : option Date)
    (item : BomItem) :
  In item (get_bom_materials db p as_of) <->
  exists bm m,
    item = bom_item_of (bm, m) /\
    find (fun r => p_id (snd r) =? p_id m)
         (order_by (fun a b : BomMaterial * Product =>
                      desc_nullslast (bm_effective_date (fst a))
                                     (bm_effective_date (fst b)))
                   (bom_material_rows db p as_of)) = Some (bm, m).
Proof.
  destruct (get_bom_materials_map db p as_of) as (-> & Hnd & Hall & Hget).
  set (mm := fold_left _ _ _) in *. split.
  - intros Hin. unfold dict_values in Hin. apply in_map_iff in Hin.
    destruct Hin as [[k v] [<- Hkv]]. simpl.
    pose proof (dict_In_get k v mm Hnd Hkv) as Hk. rewrite Hget in Hk.
    destruct (find _ _) as [[bm m]|] eqn:Hf; [|discriminate].
    injection Hk as <-. exists bm, m. split; [reflexivity|].
    pose proof (find_some _ _ Hf) as [_ Hkey]. simpl in Hkey.
    apply Z.eqb_eq in Hkey. now rewrite Hkey.
  - intros (bm & m & -> & Hf).
    assert (Hk : dict_get (p_id m) mm = Some (bom_item_of (bm, m))).
    { rewrite Hget, Hf. reflexivity. }
    apply dict_get_In in Hk. unfold dict_values.
    change (bom_item_of (bm, m)) with (snd (p_id m, bom_item_of (bm, m))).
    now apply in_map.
Qed.

Lemma add_direct_material_fold (q : Q) (items : list BomItem)
    (acc : dict Requirement) :
  NoDup (dict_keys acc ++ map material_id items) ->
  fold_left (add_direct_material q) items acc
  = acc ++ map (fun it => (material_id it, direct_requirement q it)) items.
Proof.
  revert acc. induction items as [|it t IH]; simpl; intros acc Hnd.
  - now rewrite app_nil_r.
  - unfold add_direct_material at 2.
    assert (Hfresh : dict_get (material_id it) acc = None).
    { apply dict_get_None_keys. intros Hin.
      apply NoDup_remove_2 in Hnd. apply Hnd, in_or_app. now left. }
    rewrite dict_set_fresh by exact Hfresh.
    rewrite IH.
    + now rewrite <- app_assoc.
    + unfold dict_keys in *. rewrite map_app, <- app_assoc. exact Hnd.
Qed.

(** C3 (amended).  [get_bom_materials] returns at most one entry per
    material id; the entry of a material is built from one single BOM edge,
    the latest version of the edge that counts as of the date (dated on or
    before it, or undated; a dated version is later than an undated one),
    with that edge's quantity and cached cost, never a sum over versions;
    every material with a version that counts has an entry.  The costing
    reads the BOM as of its pricing date.  The explosion takes no date: its
    direct requirements are built from the latest version of every edge,
    whatever its date. *)
Theorem get_bom_materials_latest_version :
  forall (db : Db) (p : Id) (as_of : option Date),
    NoDup (map material_id (get_bom_materials db p as_of))
    /\ (forall item,
          In item (get_bom_materials db p as_of) ->
          exists bm m,
            In m (products db) /\
            latest_version db p (p_id m) as_of bm /\
            item = bom_item_of (bm, m) /\
            material_id item = p_id m /\
            quantity item = bm_quantity bm /\
            cost item = float_or_none (bm_cost bm))
    /\ (forall bm m,
          In m (products db) -> version_of db p (p_id m) as_of bm ->
          exists item,
            In item (get_bom_materials db p as_of) /\
            material_id item = p_id m)
    /\ (forall today d,
          match calculate_product_cost_from_bom today db p (Some d) with
          | Ok cd =>
              material_details cd
              = map (material_detail_of today db d)
                    (get_bom_materials db p (Some d))
          | Raise _ => get_product db p = None
          end)
    /\ (forall today q,
          explode today db p q
          = dict_values
              (fold_left (add_semi_product today db q)
                 (get_bom_semi_products db p)
                 (map (fun it => (material_id it, direct_requirement q it))
                      (get_bom_materials db p None)))).
Proof.
  intros db p as_of.
  set (first := fun a b : BomMaterial * Product =>
    desc_nullslast (bm_effective_date (fst a)) (bm_effective_date (fst b))).
  assert (Htotal : forall a b, first a b = true \/ first b a = true)
    by (intros; apply desc_nullslast_total).
  assert (Htrans : forall a b c,
            first a b = true -> first b c = true -> first a c = true)
    by (intros a b c; apply desc_nullslast_trans).
  pose proof (order_by_sorted first Htotal Htrans
                (bom_material_rows db p as_of)) as Hsorted.
  split; [apply get_bom_materials_ids|].
  split; [|split; [|split]].
  - intros item Hitem. apply get_bom_materials_In in Hitem.
    destruct Hitem as (bm & m & -> & Hf). exists bm, m.
    pose proof (find_some _ _ Hf) as [Hrow _].
    apply order_by_In, bom_material_rows_In in Hrow.
    destruct Hrow as [Hm Hv].
    repeat split; try assumption; try apply Hv.
    intros bm' Hv'.
    apply desc_nullslast_as_recent_as.
    apply (find_sorted_first first Htotal _ _ (bm, m) Hsorted Hf
             (bm', m)).
    + apply order_by_In, bom_material_rows_In. now split.
    + simpl. apply Z.eqb_refl.
  - intros bm m Hm Hv.
    destruct (find (fun r => p_id (snd r) =? p_id m)
                   (order_by first (bom_material_rows db p as_of)))
      as [[bm0 m0]|] eqn:Hf.
    + exists (bom_item_of (bm0, m0)).
      pose proof (find_some _ _ Hf) as [_ Hkey]. simpl in Hkey.
      apply Z.eqb_eq in Hkey. split; [|exact Hkey].
      apply get_bom_materials_In. exists bm0, m0. split; [reflexivity|].
      now rewrite Hkey.
    + exfalso.
      assert (Hrow : In (bm, m) (order_by first (bom_material_rows db p as_of)))
        by (apply order_by_In, bom_material_rows_In; now split).
      pose proof (find_none _ _ Hf (bm, m) Hrow) as Hkey. simpl in Hkey.
      now rewrite Z.eqb_refl in Hkey.
  - intros today d.
    destruct (get_product db p) as [product|] eqn:Hp.
    + now rewrite (calculate_product_cost_from_bom_Ok
                     today db p (Some d) product Hp).
    + unfold calculate_product_cost_from_bom. now rewrite Hp.
  - intros today q. unfold explode.
    rewrite add_direct_material_fold; [reflexivity|].
    simpl. apply get_bom_materials_ids.
Qed.

(** C3, as stated, fails for the explosion: with versions of the edge from
    F to M dated day 100 (2 kg) and day 200 (3 kg), the explosion of one F
    requires 3 kg, the quantity of the version dated after day 150. *)
Lemma explosion_ignores_as_of_date :
  ~ explosion_uses_latest_as_of 150 Samples.two_versions 1 1 150.
Proof.
  intros H.
  destruct (H (Samples.edge 1 3 2 None (Some 100))) as (r & Hr & _ & Hq).
  - split.
    + unfold version_of, in_force. simpl. repeat split; auto. lia.
    + intros bm' (Hin & _ & _ & Hforce).
      unfold as_recent_as, in_force in *. simpl in Hin.
      destruct Hin as [<-|[<-|[]]]; simpl in *; lia.
  - vm_compute in Hr. destruct Hr as [<-|[]].
    vm_compute in Hq. discriminate.
Qed.

Lemma get_bom_materials_edge (db : Db) (p : Id) (as_of : option Date)
    (item : BomItem) :
  In item (get_bom_materials db p as_of) ->
  exists bm m,
    In m (products db) /\ version_of db p (p_id m) as_of bm /\
    item = bom_item_of (bm, m).
Proof.
  intros Hitem. apply get_bom_materials_In in Hitem.
  destruct Hitem as (bm & m & -> & Hf). exists bm, m.
  pose proof (find_some _ _ Hf) as [Hrow _].
  apply order_by_In, bom_material_rows_In in Hrow. tauto.
Qed.

Lemma or_zero_num (x : option Q) : or_zero x == num x.
Proof.
  unfold or_zero. destruct (truthy_num x) eqn:E.
  - destruct x; reflexivity.
  - symmetry. now apply truthy_num_false.
Qed.

Section LatestVersion.

Variables (db : Db) (p : Id) (as_of : option Date).

Let first := fun a b : BomMaterial * Product =>
  desc_nullslast (bm_effective_date (fst a)) (bm_effective_date (fst b)).

(** An entry of [get_bom_materials] is built from the latest version in
    force of its edge. *)
Lemma get_bom_materials_latest (item : BomItem) :
  In item (get_bom_materials db p as_of) ->
  exists bm m,
    In m (products db) /\ latest_version db p (p_id m) as_of bm /\
    item = bom_item_of (bm, m).
Proof.
  assert (Htotal : forall a b, first a b = true \/ first b a = true)
    by (intros; apply desc_nullslast_total).
  assert (Htrans : forall a b c,
            first a b = true -> first b c = true -> first a c = true)
    by (intros a b c; apply desc_nullslast_trans).
  pose proof (order_by_sorted first Htotal Htrans
                (bom_material_rows db p as_of)) as Hsorted.
  intros Hitem. apply get_bom_materials_In in Hitem.
  destruct Hitem as (bm & m & -> & Hf). exists bm, m.
  pose proof (find_some _ _ Hf) as [Hrow _].
  apply order_by_In, bom_material_rows_In in Hrow.
  destruct Hrow as [Hm Hv].
  split; [exact Hm|]. split; [|reflexivity]. split; [exact Hv|].
  intros bm' Hv'.
  apply desc_nullslast_as_recent_as.
  apply (find_sorted_first first Htotal _ _ (bm, m) Hsorted Hf (bm', m)).
  - apply order_by_In, bom_material_rows_In. now split.
  - simpl. apply Z.eqb_refl.
Qed.

(** Every material of the catalog with a version in force has an entry. *)
Lemma get_bom_materials_complete (bm : BomMaterial) (m : Product) :
  In m (products db) -> version_of db p (p_id m) as_of bm ->
  exists item,
    In item (get_bom_materials db p as_of) /\ material_id item = p_id m.
Proof.
  intros Hm Hv.
  destruct (find (fun r => p_id (snd r) =? p_id m)
                 (order_by first (bom_material_rows db p as_of)))
    as [[bm0 m0]|] eqn:Hf.
  - exists (bom_item_of (bm0, m0)).
    pose proof (find_some _ _ Hf) as [_ Hkey]. simpl in Hkey.
    apply Z.eqb_eq in Hkey. split; [|exact Hkey].
    apply get_bom_materials_In. exists bm0, m0. split; [reflexivity|].
    now rewrite Hkey.
  - exfalso.
    assert (Hrow : In (bm, m) (order_by first (bom_material_rows db p as_of)))
      by (apply order_by_In, bom_material_rows_In; now split).
    pose proof (find_none _ _ Hf (bm, m) Hrow) as Hkey. simpl in Hkey.
    now rewrite Z.eqb_refl in Hkey.
Qed.

End LatestVersion.

(** The unit cost of the line built from an edge. *)
Lemma material_unit_cost_rule (today : Date) (db : Db) (d : Date)
    (bm : BomMaterial) (m : Product) :
  unit_cost_rule today db d (p_id m) bm
    (material_detail_of today db d (bom_item_of (bm, m))).
Proof.
  split.
  - intros Hzero.
    assert (Hfalsy : truthy_num (bm_cost bm) = false).
    { destruct Hzero as [->|[c [-> Hc]]]; [reflexivity|]. simpl.
      apply negb_false_iff, Qeq_bool_iff, Hc. }
    unfold material_detail_of, material_price_of, bom_item_of,
      float_or_none. simpl. rewrite Hfalsy. simpl.
    apply or_zero_num.
  - intros c Hc Hnz.
    assert (Htruthy : truthy_num (bm_cost bm) = true).
    { rewrite Hc. simpl. apply negb_true_iff.
      destruct (Qeq_bool c 0) eqn:E; [|reflexivity].
      apply Qeq_bool_eq in E. contradiction. }
    rewrite Hc in Htruthy. simpl in Htruthy.
    unfold material_detail_of, material_price_of, bom_item_of,
      float_or_none, or_zero. simpl.
    rewrite Hc. do 3 (simpl; rewrite ?Htruthy). reflexivity.
Qed.

Lemma line_of_material_intro (today : Date) (db : Db) (p : Id) (d : Date)
    (item : BomItem) :
  In item (get_bom_materials db p (Some d)) ->
  line_of_material today db p d (material_id item)
    (material_detail_of today db d item).
Proof.
  intros Hitem. apply get_bom_materials_latest in Hitem.
  destruct Hitem as (bm & m & Hm & Hlatest & ->).
  exists bm, m. repeat split; try assumption; try apply Hlatest;
    apply material_unit_cost_rule.
Qed.

(** C10.  The costing of a product as of a pricing date has one material
    line for every material of the catalog with a BOM edge in force from
    the product, and no other line.  The line of a material is built from
    the latest version in force of the edge.  When the cost cached on that
    edge is null or zero, the unit cost of the line is the price-history
    price of the material as of the pricing date, and 0 when there is no
    such price; a cached cost other than zero is the unit cost. *)
Theorem zero_cached_cost_falls_back_to_price_history :
  forall (today : Date) (db : Db) (p : Id) (d : Date),
    match calculate_product_cost_from_bom today db p (Some d) with
    | Ok cd =>
        Forall (fun line => exists k, line_of_material today db p d k line)
               (material_details cd)
        /\ (forall bm m,
              In m (products db) ->
              version_of db p (p_id m) (Some d) bm ->
              exists line,
                In line (material_details cd) /\
                line_of_material today db p d (p_id m) line)
        /\ List.length (material_details cd)
           = List.length (get_bom_materials db p (Some d))
        /\ NoDup (map material_id (get_bom_materials db p (Some d)))
    | Raise _ => get_product db p = None
    end.
Proof.
  intros today db p d.
  destruct (get_product db p) as [product|] eqn:Hp.
  - rewrite (calculate_product_cost_from_bom_Ok
               today db p (Some d) product Hp).
    simpl. split; [|split; [|split]].
    + apply Forall_forall. intros line Hline.
      apply in_map_iff in Hline. destruct Hline as [item [<- Hitem]].
      exists (material_id item). now apply line_of_material_intro.
    + intros bm m Hm Hv.
      destruct (get_bom_materials_complete db p (Some d) bm m Hm Hv)
        as (item & Hitem & Hid).
      exists (material_detail_of today db d item). split.
      * now apply in_map.
      * rewrite <- Hid. now apply line_of_material_intro.
    + now rewrite length_map.
    + apply get_bom_materials_ids.
  - unfold calculate_product_cost_from_bom. now rewrite Hp.
Qed.

(** ** Netting *)

Lemma max2_floor (x : Q) : (0 <= max2 0 x)%Q.
Proof.
  unfold max2, Qltb. destruct (Qle_bool x 0) eqn:E; simpl.
  - apply Qle_refl.
  - apply Qlt_le_weak, Qnot_le_lt. intros H.
    apply Qle_bool_iff in H. congruence.
Qed.

(** C7.  Every row of the material requirement plan has a net required
    quantity that is not negative, whatever the gross requirement and the
    stock on hand and whether or not stock is deducted; and the net demand
    of a product after deducting its stock is not negative. *)
Theorem net_requirement_never_negative :
  forall (today : Date) (db : Db) (start_date end_date : option Date)
         (deduct_stock : bool),
    Forall (fun row => (0 <= net_required_qty row)%Q)
      (calculate_material_requirement_plan
         today db start_date end_date deduct_stock)
    /\ forall total_demand available_stock,
         (0 <= net_demand_of true total_demand available_stock)%Q.
Proof.
  intros today db start_date end_date deduct_stock. split.
  - unfold calculate_material_requirement_plan.
    apply Forall_forall. intros row Hrow.
    apply in_map_iff in Hrow. destruct Hrow as [[k g] [<- _]].
    simpl. apply max2_floor.
  - intros total_demand available_stock. simpl. apply max2_floor.
Qed.

(** ** Evaluations *)

(** C1.  The explosion of 100 F, where F takes 1.5 S per unit, S has batch
    spec "20" and a batch of S takes 5 kg of M, requires 37.5 kg of M: the
    batch count is 150 / 20 = 7.5, not rounded up to 8, so the requirement
    is not 40 kg.  For the same demand [calculate_batch_count] and
    [calculate_btp_demand_from_product] both count 8 batches. *)
Theorem explosion_batch_count_not_rounded_up :
  forall today : Date,
    (exists r,
       calculate_material_requirements_for_production_order
         today (Samples.two_level (Some "20"%string)) 10 = Ok [r]
       /\ r_material_id r = 3
       /\ required_quantity r == 75 # 2
       /\ ~ required_quantity r == 40)
    /\ calculate_batch_count (fun _ => Some (Finite 20)) 150
         (Some "20"%string)
       = 8%Q
    /\ exists d,
         calculate_btp_demand_from_product
           2 (Samples.two_level (Some "20"%string)) 1 100 = Some (Ok [d])
         /\ btp_id d = 2 /\ batch_count d = 8%Q.
Proof.
  intros today. split; [|split].
  - eexists. split; [vm_compute; reflexivity|].
    split; [reflexivity|]. split; [vm_compute; reflexivity|].
    intros H. vm_compute in H. discriminate.
  - vm_compute. reflexivity.
  - eexists. split; [vm_compute; reflexivity|].
    split; vm_compute; reflexivity.
Qed.

(** C2.  When the semi-product S has no batch spec ([None] or the empty
    string), the explosion of 100 F requires nothing: the 5 kg of M per
    batch of S are not added once, the materials of S are left out, while
    with the batch spec "1" they are in the result.  For the same demand
    [calculate_btp_demand_from_product] counts one batch of S. *)
Theorem explosion_omits_child_without_batch_spec :
  forall today : Date,
    calculate_material_requirements_for_production_order
      today (Samples.two_level None) 10 = Ok []
    /\ calculate_material_requirements_for_production_order
         today (Samples.two_level (Some ""%string)) 10 = Ok []
    /\ (exists r,
          calculate_material_requirements_for_production_order
            today (Samples.two_level (Some "1"%string)) 10 = Ok [r]
          /\ r_material_id r = 3)
    /\ exists d,
         calculate_btp_demand_from_product
           2 (Samples.two_level None) 1 100 = Some (Ok [d])
         /\ btp_id d = 2 /\ batch_count d = 1%Q.
Proof.
  intros today. split; [vm_compute; reflexivity|].
  split; [vm_compute; reflexivity|]. split.
  - eexists. split; [vm_compute; reflexivity | reflexivity].
  - eexists. split; [vm_compute; reflexivity|].
    split; vm_compute; reflexivity.
Qed.

(** C8.  Two deliveries of 800 units of P, due on days 100 and 101 with
    planning starting on day 100, are both planned for production on day
    100: the plan of that day holds 1600 units against a capacity of 1000,
    in two orders of 800. *)
Theorem allocation_exceeds_daily_capacity :
  forall py_float : string -> option PyFloat,
    exists db' orders plan,
      generate_production_orders_from_sales_orders
        py_float 100 Samples.two_deliveries (Some 100) (Some 130) true
      = Ok (db', orders)
      /\ plan_days db' = [plan]
      /\ ppd_product_id plan = 1
      /\ ppd_production_date plan = 100
      /\ ppd_planned_qty plan == 1600
      /\ ppd_capacity_max plan == 1000
      /\ map (fun o => (po_product_id o, po_production_date o,
                        po_planned_qty o)) orders
         = [(1, 100, 800%Q); (1, 100, 800%Q)].
Proof.
  intros py_float. do 3 eexists.
  split; [vm_compute; reflexivity|].
  split; [reflexivity|].
  repeat split; vm_compute; reflexivity.
Qed.

(** ** Cost prices are not an input of the costing *)

Lemma filter_map_comm {A B : Type} (h : A -> B) (test : B -> bool)
    (l : list A) :
  filter test (map h l) = map h (filter (fun x => test (h x)) l).
Proof.
  induction l as [|x t IH]; simpl; [reflexivity|].
  destruct (test (h x)); simpl; now rewrite IH.
Qed.

Lemma insert_by_map {A : Type} (h : A -> A) (first : A -> A -> bool)
    (x : A) (l : list A) :
  (forall a b, first (h a) (h b) = first a b) ->
  insert_by first (h x) (map h l) = map h (insert_by first x l).
Proof.
  intros H. induction l as [|y t IH]; simpl; [reflexivity|].
  rewrite H. destruct (first x y); simpl; [reflexivity | now rewrite IH].
Qed.

Lemma order_by_map {A : Type} (h : A -> A) (first : A -> A -> bool)
    (l : list A) :
  (forall a b, first (h a) (h b) = first a b) ->
  order_by first (map h l) = map h (order_by first l).
Proof.
  intros H. unfold order_by.
  induction l as [|x t IH]; simpl; [reflexivity|].
  rewrite IH. now apply insert_by_map.
Qed.

Lemma keep_first_map {R V : Type} (h : R -> R) (key : R -> Z) (val : R -> V)
    (rows : list R) (acc : dict V) :
  (forall r, key (h r) = key r) -> (forall r, val (h r) = val r) ->
  fold_left (keep_first key val) (map h rows) acc
  = fold_left (keep_first key val) rows acc.
Proof.
  intros Hk Hv. revert acc.
  induction rows as [|r t IH]; simpl; intros acc; [reflexivity|].
  rewrite IH. unfold keep_first. now rewrite Hk, Hv.
Qed.

Section Reprice.

Variables (i : Id) (c : Q).

Let touch : Product -> Product := with_cost_price i c.

Lemma with_cost_price_id (p : Product) : p_id (touch p) = p_id p.
Proof. unfold touch, with_cost_price. now destruct (p_id p =? i). Qed.

Lemma with_cost_price_static (p : Product) :
  p_code (touch p) = p_code p /\ p_name (touch p) = p_name p /\
  p_group (touch p) = p_group p /\
  p_batch_spec (touch p) = p_batch_spec p.
Proof. unfold touch, with_cost_price. now destruct (p_id p =? i). Qed.

(** The join of a table with the products, on a key of the table. *)
Lemma join_products_repriced {X : Type} (k : X -> Id) (xs : list X)
    (ps : list Product) :
  flat_map (fun x =>
    map (fun p => (x, p)) (filter (fun p => p_id p =? k x) (map touch ps)))
    xs
  = map (fun r : X * Product => (fst r, touch (snd r)))
      (flat_map (fun x =>
         map (fun p => (x, p)) (filter (fun p => p_id p =? k x) ps)) xs).
Proof.
  induction xs as [|x t IH]; simpl; [reflexivity|].
  rewrite IH, map_app. f_equal.
  rewrite filter_map_comm, !map_map.
  erewrite filter_ext; [reflexivity|].
  intros p. simpl. now rewrite with_cost_price_id.
Qed.

Lemma get_product_repriced (db : Db) (j : Id) :
  get_product (set_cost_price db i c) j
  = option_map touch (get_product db j).
Proof.
  unfold get_product. simpl.
  induction (products db) as [|p t IH]; simpl; [reflexivity|].
  rewrite with_cost_price_id. now destruct (p_id p =? j).
Qed.

Lemma get_bom_materials_repriced (db : Db) (p : Id) (d : option Date) :
  get_bom_materials (set_cost_price db i c) p d = get_bom_materials db p d.
Proof.
  unfold get_bom_materials. f_equal.
  assert (Hrows :
    bom_material_rows (set_cost_price db i c) p d
    = map (fun r : BomMaterial * Product => (fst r, touch (snd r)))
          (bom_material_rows db p d)).
  { unfold bom_material_rows. simpl.
    rewrite (join_products_repriced bm_material_id).
    destruct d; now rewrite !filter_map_comm. }
  rewrite Hrows, order_by_map by reflexivity.
  apply keep_first_map.
  - intros [bm m]. simpl. apply with_cost_price_id.
  - intros [bm m]. unfold bom_item_of. simpl.
    destruct (with_cost_price_static m) as (-> & -> & _).
    now rewrite with_cost_price_id.
Qed.

Lemma products_using_btp_repriced (db : Db) (b : Id) :
  products_using_btp (set_cost_price db i c) b = products_using_btp db b.
Proof.
  unfold products_using_btp. simpl.
  rewrite (join_products_repriced bs_semi_product_id).
  rewrite filter_map_comm, map_map. simpl.
  apply map_ext. intros r. apply with_cost_price_id.
Qed.

Lemma calculate_product_cost_from_bom_repriced (today : Date) (db : Db)
    (p : Id) (d : option Date) :
  calculate_product_cost_from_bom today (set_cost_price db i c) p d
  = calculate_product_cost_from_bom today db p d.
Proof.
  unfold calculate_product_cost_from_bom.
  rewrite get_product_repriced, get_bom_materials_repriced.
  destruct (get_product db p) as [product|]; simpl; [|reflexivity].
  destruct (with_cost_price_static product) as (-> & -> & _).
  reflexivity.
Qed.

End Reprice.

(** ** The cascade over an arbitrary outcome of the costing *)

Lemma repriced_products_using_btp (db0 db : Db) (b : Id) :
  repriced db0 db -> products_using_btp db b = products_using_btp db0 b.
Proof.
  induction 1 as [|db i c _ IH]; [reflexivity|].
  now rewrite products_using_btp_repriced.
Qed.

Section CascadeRun.

Variable costing : Db -> Id -> result CostData.

(** The costing does not read the stored cost prices. *)
Hypothesis costing_repriced :
  forall db i c j, costing (set_cost_price db i c) j = costing db j.

Variable db0 : Db.

Lemma repriced_costing (db : Db) (j : Id) :
  repriced db0 db -> costing db j = costing db0 j.
Proof.
  induction 1 as [|db i c _ IH]; [reflexivity|].
  now rewrite costing_repriced.
Qed.

Lemma recalculate_parent_repriced (btp_code : string)
    (st : Db * list CascadeUpdated) (x : Id) :
  repriced db0 (fst st) ->
  repriced db0 (fst (recalculate_parent costing btp_code st x)).
Proof.
  destruct st as [db cu]. simpl. intros H.
  destruct (get_product db x); [|exact H].
  destruct (costing db x); [|exact H].
  simpl. now constructor.
Qed.

Lemma recalculate_parents_repriced (btp_code : string) (rows : list Id)
    (st : Db * list CascadeUpdated) :
  repriced db0 (fst st) ->
  repriced db0
    (fst (fold_left (recalculate_parent costing btp_code) rows st)).
Proof.
  revert st. induction rows as [|x t IH]; simpl; intros st H; [exact H|].
  now apply IH, recalculate_parent_repriced.
Qed.

Lemma recalculate_product_repriced
    (st : Db * list UpdatedProduct * list CascadeUpdated) (x : Id) :
  repriced db0 (fst (fst st)) ->
  repriced db0 (fst (fst (recalculate_product costing st x))).
Proof.
  destruct st as [[db up] cu]. simpl. intros H.
  destruct (get_product db x) as [product|]; [|exact H].
  destruct (costing db x) as [cd|]; [|exact H].
  destruct (String.eqb (p_group product) "BTP").
  - pose proof (recalculate_parents_repriced (p_code product)
      (products_using_btp (set_cost_price db x (cd_total_cost cd)) x)
      (set_cost_price db x (cd_total_cost cd), cu)) as Hp.
    destruct (fold_left _ _ _) as [db' cu']. simpl in *.
    apply Hp. now constructor.
  - simpl. now constructor.
Qed.

(** A parent whose costing raises is left as it is, and the loop goes on
    with the parents that follow. *)
Lemma recalculate_parents_skip (btp_code : string) (rows : list Id)
    (st : Db * list CascadeUpdated) :
  repriced db0 (fst st) ->
  fold_left (recalculate_parent costing btp_code) rows st
  = fold_left (recalculate_parent costing btp_code)
      (filter (fun x => succeeds (costing db0 x)) rows) st.
Proof.
  revert st. induction rows as [|x t IH]; simpl; intros st H;
    [reflexivity|].
  destruct (succeeds (costing db0 x)) eqn:E; simpl.
  - now apply IH, recalculate_parent_repriced.
  - replace (recalculate_parent costing btp_code st x) with st;
      [now apply IH|].
    destruct st as [db cu]. simpl in *.
    destruct (get_product db x); [|reflexivity].
    rewrite (repriced_costing db x H).
    now destruct (costing db0 x).
Qed.

(** A product whose costing raises is left as it is, and the loop goes on
    with the products that follow. *)
Lemma recalculate_products_skip (rows : list Id)
    (st : Db * list UpdatedProduct * list CascadeUpdated) :
  repriced db0 (fst (fst st)) ->
  fold_left (recalculate_product costing) rows st
  = fold_left (recalculate_product costing)
      (filter (fun x => succeeds (costing db0 x)) rows) st.
Proof.
  revert st. induction rows as [|x t IH]; simpl; intros st H;
    [reflexivity|].
  destruct (succeeds (costing db0 x)) eqn:E; simpl.
  - now apply IH, recalculate_product_repriced.
  - replace (recalculate_product costing st x) with st; [now apply IH|].
    destruct st as [[db up] cu]. simpl in *.
    destruct (get_product db x); [|reflexivity].
    rewrite (repriced_costing db x H).
    now destruct (costing db0 x).
Qed.

End CascadeRun.

(** ** Planning over the orders that explode *)

Lemma add_orders_skip (today : Date) (db : Db)
    (orders : list ProductionOrder) (acc : dict Gross) :
  fold_left (add_order today db) orders acc
  = fold_left (fun acc materials => fold_left add_material materials acc)
      (exploded_orders today db orders) acc.
Proof.
  revert acc. induction orders as [|po t IH]; simpl; intros acc;
    [reflexivity|].
  unfold exploded_orders in *. simpl. rewrite fold_left_app, IH.
  unfold add_order.
  now destruct (calculate_material_requirements_for_production_order
                  today db (po_id po)).
Qed.




(** ** The cascade with the costing of the service *)

Section CascadeInvariant.

Variable costing : Db -> Id -> result CostData.

(** A property of the session that every assignment of a computed total
    cost keeps. *)
Variable P : Db -> Prop.

Hypothesis P_step :
  forall db j cd,
    P db -> costing db j = Ok cd ->
    P (set_cost_price db j (cd_total_cost cd)).

Lemma recalculate_parents_inv (btp_code : string) (rows : list Id)
    (st : Db * list CascadeUpdated) :
  P (fst st) ->
  P (fst (fold_left (recalculate_parent costing btp_code) rows st)).
Proof.
  revert st. induction rows as [|x t IH]; simpl; intros st H; [exact H|].
  apply IH. destruct st as [db cu]. simpl in *.
  destruct (get_product db x); [|exact H].
  destruct (costing db x) eqn:E; [|exact H].
  simpl. now apply P_step.
Qed.

Lemma recalculate_product_inv
    (st : Db * list UpdatedProduct * list CascadeUpdated) (x : Id) :
  P (fst (fst st)) ->
  P (fst (fst (recalculate_product costing st x)))
  /\ forall e, In e (snd (fst st)) ->
               In e (snd (fst (recalculate_product costing st x))).
Proof.
  destruct st as [[db up] cu]. simpl. intros H.
  destruct (get_product db x) as [product|]; [|now split].
  destruct (costing db x) as [cd|] eqn:E; [|now split].
  destruct (String.eqb (p_group product) "BTP").
  - pose proof (recalculate_parents_inv (p_code product)
      (products_using_btp (set_cost_price db x (cd_total_cost cd)) x)
      (set_cost_price db x (cd_total_cost cd), cu)) as Hp.
    destruct (fold_left _ _ _) as [db' cu']. simpl in *.
    split; [apply Hp; now apply P_step|].
    intros e He. apply in_or_app. now left.
  - simpl. split; [now apply P_step|].
    intros e He. apply in_or_app. now left.
Qed.

Lemma recalculate_products_inv (rows : list Id)
    (st : Db * list UpdatedProduct * list CascadeUpdated) :
  P (fst (fst st)) ->
  P (fst (fst (fold_left (recalculate_product costing) rows st)))
  /\ forall e, In e (snd (fst st)) ->
       In e (snd (fst (fold_left (recalculate_product costing) rows st))).
Proof.
  revert st. induction rows as [|x t IH]; simpl; intros st H;
    [now split|].
  destruct (recalculate_product_inv st x H) as [H1 H2].
  destruct (IH _ H1) as [H3 H4]. split; [exact H3 | auto].
Qed.

End CascadeInvariant.

Lemma find_product_Forall2 (R : Product -> Product -> Prop)
    (l0 l : list Product) (i : Id) (q0 : Product) :
  (forall a b, R a b -> p_id b = p_id a) ->
  Forall2 R l0 l ->
  find (fun p => p_id p =? i) l0 = Some q0 ->
  exists q, find (fun p => p_id p =? i) l = Some q /\ R q0 q.
Proof.
  intros Hid. induction 1 as [|a b t0 t Hab _ IH]; simpl; [discriminate|].
  rewrite (Hid a b Hab). destruct (p_id a =? i).
  - intros [= <-]. now exists b.
  - exact IH.
Qed.

Lemma products_using_material_In (db : Db) (bm : BomMaterial)
    (p : Product) :
  In bm (bom_materials db) ->
  get_product db (bm_product_id bm) = Some p ->
  In (p_id p) (products_using_material db (bm_material_id bm)).
Proof.
  intros Hbm Hp. apply find_some in Hp. destruct Hp as [Hin Hid].
  unfold products_using_material.
  apply (in_map (fun r : BomMaterial * Product => p_id (snd r)) _ (bm, p)).
  apply filter_In. split; [|simpl; apply Z.eqb_refl].
  apply in_flat_map. exists bm. split; [exact Hbm|].
  apply in_map, filter_In. now split.
Qed.

Section CascadeOfService.

Variable today : Date.
Variable db0 : Db.

Let costing : Db -> Id -> result CostData :=
  fun db i => calculate_product_cost_from_bom today db i None.

Lemma costing_repriced (db : Db) (i : Id) (c : Q) (j : Id) :
  costing (set_cost_price db i c) j = costing db j.
Proof. apply calculate_product_cost_from_bom_repriced. Qed.

Lemma tracked_step (db : Db) (j : Id) (cd : CostData) :
  tracked today db0 db -> costing db j = Ok cd ->
  tracked today db0 (set_cost_price db j (cd_total_cost cd)).
Proof.
  intros [Hrep Hall] Hcd. split; [now constructor|].
  rewrite (repriced_costing costing costing_repriced db0 db j Hrep)
    in Hcd.
  simpl. revert Hall. generalize (products db0), (products db).
  induction 1 as [|a b t0 t Hab _ IH]; simpl; constructor; [|exact IH].
  destruct Hab as [Hid Hcost]. unfold with_cost_price.
  destruct (Z.eqb_spec (p_id b) j) as [Hj|Hj]; [|now split].
  split; [exact Hid|]. simpl. right. exists cd.
  rewrite <- Hid, Hj. now split.
Qed.

Variable i : Id.
Variable cd_i : CostData.
Hypothesis cost_i : costing db0 i = Ok cd_i.

Let tracked_and_settled : Db -> Prop :=
  tracked_and_settled today db0 i (cd_total_cost cd_i).

Lemma tracked_and_settled_step (db : Db) (j : Id) (cd : CostData) :
  tracked_and_settled db -> costing db j = Ok cd ->
  tracked_and_settled (set_cost_price db j (cd_total_cost cd)).
Proof.
  intros [Htr Hset] Hcd. split; [now apply tracked_step|].
  intros q Hq Hid. simpl in Hq. apply in_map_iff in Hq.
  destruct Hq as [q' [<- Hq']]. unfold with_cost_price in *.
  destruct (Z.eqb_spec (p_id q') j) as [Hj|Hj].
  - simpl in *.
    rewrite (repriced_costing costing costing_repriced db0 db j
               (proj1 Htr)) in Hcd.
    assert (Heq : Ok cd = Ok cd_i) by (rewrite <- Hcd, <- cost_i; congruence).
    now injection Heq as ->.
  - now apply Hset.
Qed.

(** The step of the loop at product [i]. *)
Lemma recalculate_product_settles (p : Product)
    (st : Db * list UpdatedProduct * list CascadeUpdated) :
  get_product db0 i = Some p ->
  tracked today db0 (fst (fst st)) ->
  let st' := recalculate_product costing st i in
  tracked_and_settled (fst (fst st'))
  /\ exists e,
       In e (snd (fst st')) /\ up_product_id e = i /\
       new_cost_price e = cd_total_cost cd_i /\
       (old_cost_price e = float_or_none (p_cost_price p) \/
        old_cost_price e = float_or_none (Some (cd_total_cost cd_i))).
Proof.
  destruct st as [[db up] cu]. simpl. intros Hp Htr.
  destruct (find_product_Forall2 (cost_kept_or_recomputed today db0)
              (products db0) (products db) i p
              (fun a b H => proj1 H) (proj2 Htr) Hp)
    as (q & Hq & Hid & Hcost).
  unfold get_product. rewrite Hq.
  rewrite (repriced_costing costing costing_repriced db0 db i (proj1 Htr)).
  rewrite cost_i.
  assert (Hi : p_id p = i).
  { apply find_some in Hp. now apply Z.eqb_eq. }
  assert (Hsettled :
    tracked_and_settled (set_cost_price db i (cd_total_cost cd_i))).
  { split.
    - apply tracked_step; [exact Htr|].
      now rewrite (repriced_costing costing costing_repriced db0 db i
                     (proj1 Htr)).
    - intros r Hr Hrid. simpl in Hr. apply in_map_iff in Hr.
      destruct Hr as [r' [<- Hr']]. unfold with_cost_price in *.
      destruct (Z.eqb_spec (p_id r') i); [reflexivity | contradiction]. }
  set (e := {| up_product_id := p_id q;
               up_product_code := p_code q;
               up_product_name := p_name q;
               old_cost_price := float_or_none (p_cost_price q);
               new_cost_price := cd_total_cost cd_i |}).
  assert (He : up_product_id e = i /\
               new_cost_price e = cd_total_cost cd_i /\
               (old_cost_price e = float_or_none (p_cost_price p) \/
                old_cost_price e
                = float_or_none (Some (cd_total_cost cd_i)))).
  { simpl. split; [congruence|]. split; [reflexivity|].
    destruct Hcost as [->|[cd [Hcd ->]]]; [now left|].
    right. rewrite Hi in Hcd. fold (costing db0 i) in Hcd.
    rewrite cost_i in Hcd. now injection Hcd as ->. }
  destruct (String.eqb (p_group q) "BTP").
  - pose proof (recalculate_parents_inv costing tracked_and_settled
      tracked_and_settled_step (p_code q)
      (products_using_btp (set_cost_price db i (cd_total_cost cd_i)) i)
      (set_cost_price db i (cd_total_cost cd_i), cu) Hsettled) as Hinv.
    destruct (fold_left _ _ _) as [db' cu']. simpl in *.
    split; [exact Hinv|]. exists e. split; [|exact He].
    apply in_or_app. right. now left.
  - simpl. split; [exact Hsettled|]. exists e. split; [|exact He].
    apply in_or_app. right. now left.
Qed.

Lemma recalculate_products_settle (p : Product) (rows : list Id) :
  get_product db0 i = Some p ->
  In i rows ->
  let st' := fold_left (recalculate_product costing) rows (db0, [], []) in
  tracked_and_settled (fst (fst st'))
  /\ exists e,
       In e (snd (fst st')) /\ up_product_id e = i /\
       new_cost_price e = cd_total_cost cd_i /\
       (old_cost_price e = float_or_none (p_cost_price p) \/
        old_cost_price e = float_or_none (Some (cd_total_cost cd_i))).
Proof.
  intros Hp Hin. apply in_split in Hin. destruct Hin as (l1 & l2 & ->).
  simpl. rewrite fold_left_app. simpl.
  set (st1 := fold_left (recalculate_product costing) l1 (db0, [], [])).
  assert (Htr1 : tracked today db0 (fst (fst st1))).
  { apply (recalculate_products_inv costing (tracked today db0)
             tracked_step l1 (db0, [], [])).
    simpl. split; [constructor|].
    generalize (products db0). induction l as [|a t IH]; constructor;
      [|exact IH].
    split; [reflexivity | now left]. }
  destruct (recalculate_product_settles p st1 Hp Htr1)
    as (Hset & e & He & Hfacts).
  destruct (recalculate_products_inv costing tracked_and_settled
              tracked_and_settled_step l2 _ Hset) as [Hfinal Hkeep].
  split; [exact Hfinal|]. exists e. split; [now apply Hkeep | exact Hfacts].
Qed.

End CascadeOfService.



